(** * Barcode inventory reconciler: a shallow embedding and its properties

    The repository holds two versions of one React component:

    - [OneColumn]  : src/barcode-reconciler-app/src/BarcodeReconciler.jsx.
      The master list is a list of instrument numbers; every non-empty
      scan is tallied under its trimmed text.
    - [TwoColumn]  : src/unnamed/part_000.  The master list is a list of
      row strings "instrument,serial"; a scan is tallied only when it
      matches the instrument or the serial number of some row.

    Both versions carry the same [report] code, embedded once.

    Modelling choices.
    - JavaScript strings are [string]; the text is taken to be ASCII, so
      [trim] strips the ASCII white space (codes 9-13 and 32) and
      [toUpperCase] maps a-z to A-Z.
    - The plain object [scannedData] (and the report's [short]) is the
      list of its own properties, with unique keys kept in creation
      order.  Reading [o[k]] goes through the prototype chain: a key
      that is not an own property but names a property of
      Object.prototype ("constructor", "toString", "__proto__", ...)
      reads as the inherited function or object ([read]).  The
      numeric-key-first enumeration order of JavaScript objects is not
      modelled; no statement below depends on the order of the keys.
    - A stored value is a number or a string.  Numbers are [nat] (they
      stay far below 2^53, where JavaScript addition is exact).  A
      string arises only from [+] on a non-number and is kept as the
      sequence of the texts that were concatenated ([piece]); the source
      text of a native function is left abstract, since engines differ
      on it.
    - React state is passed explicitly: a handler maps a state to the
      next state (functional [setScannedData] updates are applied in
      order).  The keyboard and manual-entry handlers are those of the
      current render.  The camera callback is the one registered by the
      effect that ran when the camera was switched on (its dependency
      list is [isUsingCamera]); it keeps the master list of that render
      ([cameraList]).
    - The file parser (Papa.parse) is outside the model: the catalog
      build starts from the parsed rows, whose fields are strings. *)

From Stdlib Require Import List String Ascii Bool Arith Lia Permutation.
Import ListNotations.
Open Scope string_scope.

(* ================================================================== *)
(** ** JavaScript primitives used by the component *)

Module JS.

(** White space stripped by [String.prototype.trim] (ASCII part). *)
Definition isWhite (c : ascii) : bool :=
  let n := nat_of_ascii c in
  ((n =? 32) || ((9 <=? n) && (n <=? 13)))%nat.

Fixpoint trimStart (s : string) : string :=
  match s with
  | EmptyString => EmptyString
  | String c r => if isWhite c then trimStart r else s
  end.

Fixpoint trimEnd (s : string) : string :=
  match s with
  | EmptyString => EmptyString
  | String c r =>
      match trimEnd r with
      | EmptyString => if isWhite c then EmptyString else String c EmptyString
      | r' => String c r'
      end
  end.

(** [s.trim()] *)
Definition trim (s : string) : string := trimEnd (trimStart s).

Definition upperChar (c : ascii) : ascii :=
  let n := nat_of_ascii c in
  if ((97 <=? n) && (n <=? 122))%nat then ascii_of_nat (n - 32) else c.

(** [s.toUpperCase()] *)
Fixpoint toUpperCase (s : string) : string :=
  match s with
  | EmptyString => EmptyString
  | String c r => String (upperChar c) (toUpperCase r)
  end.

(** [s.split(sep)] for a one-character separator: never empty. *)
Fixpoint split (sep : ascii) (s : string) : list string :=
  match s with
  | EmptyString => [EmptyString]
  | String c r =>
      if Ascii.eqb c sep then EmptyString :: split sep r
      else match split sep r with
           | h :: t => String c h :: t
           | [] => [String c EmptyString]
           end
  end.

(** Truthiness of a string: non-empty. *)
Definition truthy (s : string) : bool :=
  match s with EmptyString => false | _ => true end.

(** [arr[i]], [undefined] rendered as [None]. *)
Definition at_ (l : list string) (i : nat) : option string := nth_error l i.

(** [arr.includes(x)] *)
Definition includes (l : list string) (x : string) : bool :=
  existsb (String.eqb x) l.

(** [arr.find(p)] *)
Definition find_ {A} (p : A -> bool) (l : list A) : option A := List.find p l.

(** *** [new Set(xs)]: insertion-ordered, first occurrence kept *)
Definition Set_add (s : list string) (x : string) : list string :=
  if includes s x then s else (s ++ [x])%list.

Definition Set_of (xs : list string) : list string :=
  fold_left Set_add xs [].

(** *** Values

    The texts a string can be made of: the decimal digits of a number,
    the source text of the native function [Object.prototype[name]]
    (it has the form "function ... { [native code] }"), and
    "[object Object]", the text of [Object.prototype] itself. *)
Inductive piece :=
| Digits (n : nat)
| FunctionText (name : string)
| ObjectText.

(** What the tally and the report hold: a number, or the string that is
    the concatenation of the pieces. *)
Inductive stored :=
| Num (n : nat)
| Str (pieces : list piece).

(** What an expression [o[k]] can evaluate to, [undefined] apart. *)
Inductive operand :=
| Val (v : stored)
| Fn (name : string)
| ObjectPrototype.

(** The function-valued own properties of [Object.prototype]; its
    remaining own property is the accessor ["__proto__"]. *)
Definition protoFunctions : list string :=
  ["constructor"; "__defineGetter__"; "__defineSetter__"; "hasOwnProperty";
   "__lookupGetter__"; "__lookupSetter__"; "isPrototypeOf";
   "propertyIsEnumerable"; "toString"; "valueOf"; "toLocaleString"].

Definition isProtoName (k : string) : bool :=
  includes protoFunctions k || String.eqb k "__proto__".

(** What a key reads as when it is not an own property. *)
Definition inherited (k : string) : option operand :=
  if includes protoFunctions k then Some (Fn k)
  else if String.eqb k "__proto__" then Some ObjectPrototype
  else None.

(** *** Plain objects used as string-keyed counters *)
Definition obj := list (string * stored).

(** The own property [k] of [o], if there is one. *)
Fixpoint get (o : obj) (k : string) : option stored :=
  match o with
  | [] => None
  | (k', v) :: r => if String.eqb k' k then Some v else get r k
  end.

(** [o[k]]: the own property, else the one inherited from
    [Object.prototype]; [None] is [undefined]. *)
Definition read (o : obj) (k : string) : option operand :=
  match get o k with
  | Some v => Some (Val v)
  | None => inherited k
  end.

(** Truthiness: [0] and the empty string are falsy, functions and
    objects are truthy. *)
Definition truthyOperand (x : operand) : bool :=
  match x with
  | Val (Num 0) => false
  | Val (Num (S _)) => true
  | Val (Str []) => false
  | Val (Str (_ :: _)) => true
  | Fn _ => true
  | ObjectPrototype => true
  end.

(** [x || 0] *)
Definition orZero (x : option operand) : operand :=
  match x with
  | Some v => if truthyOperand v then v else Val (Num 0)
  | None => Val (Num 0)
  end.

(** ToPrimitive: a function gives its source text, [Object.prototype]
    gives "[object Object]". *)
Definition toPrimitive (x : operand) : stored :=
  match x with
  | Val v => v
  | Fn name => Str [FunctionText name]
  | ObjectPrototype => Str [ObjectText]
  end.

(** [a + b] on primitives: addition of two numbers, concatenation as
    soon as one side is a string. *)
Definition plus (a b : stored) : stored :=
  match a, b with
  | Num x, Num y => Num (x + y)
  | Num x, Str q => Str (Digits x :: q)
  | Str p, Num y => Str (p ++ [Digits y])
  | Str p, Str q => Str (p ++ q)
  end.

(** [a + b] *)
Definition add (a b : operand) : stored :=
  plus (toPrimitive a) (toPrimitive b).

(** [x === n] for a number literal [n]. *)
Definition strictEq (x : operand) (n : nat) : bool :=
  match x with
  | Val (Num m) => Nat.eqb m n
  | _ => false
  end.

(** The number a string converts to, [None] for NaN: a concatenation
    of digit groups is that decimal number, the empty string is 0, and
    a string holding a function text or "[object Object]" is no
    number. *)
Fixpoint ropeNumber (acc : nat) (ps : list piece) : option nat :=
  match ps with
  | [] => Some acc
  | Digits n :: r =>
      ropeNumber (acc * 10 ^ Decimal.nb_digits (Nat.to_uint n) + n) r
  | _ :: _ => None
  end.

Definition toNumber (x : operand) : option nat :=
  match x with
  | Val (Num m) => Some m
  | Val (Str ps) => ropeNumber 0 ps
  | Fn _ => None
  | ObjectPrototype => None
  end.

(** [x > n] for a number literal [n]; false on NaN. *)
Definition greater (x : operand) (n : nat) : bool :=
  match toNumber x with
  | Some m => Nat.ltb n m
  | None => false
  end.

(** [{...o, [k]: v}]: an own property is defined; an existing key keeps
    its place. *)
Fixpoint set (o : obj) (k : string) (v : stored) : obj :=
  match o with
  | [] => [(k, v)]
  | (k', v') :: r =>
      if String.eqb k' k then (k', v) :: r else (k', v') :: set r k v
  end.

(** [o[k] = v] for a primitive [v] on an object that has no own
    ["__proto__"]: the assignment defines an own property, except for
    the key ["__proto__"], whose inherited setter ignores primitives. *)
Definition assign (o : obj) (k : string) (v : stored) : obj :=
  if String.eqb k "__proto__" then o else set o k v.

Definition Object_keys (o : obj) : list string := map fst o.
Definition Object_values (o : obj) : list stored := map snd o.

(** Keys are unique in every object the component builds. *)
Definition wf (o : obj) : Prop := NoDup (Object_keys o).

End JS.

Import JS.

(* ================================================================== *)
(** ** The report (identical in both versions)

    BarcodeReconciler.jsx lines 60-98, part_000 lines 139-175. *)

(** [{ number: item, count: scannedData[item] }] *)
Record ExcessEntry := { number : string; count : option operand }.

Record Report := {
  totalExpected : nat;
  totalScanned : stored;
  missing : list string;
  excess : list ExcessEntry;
  short : obj;
  matched : list string
}.

(** The three accumulators filled by [masterList.forEach]. *)
Record Buckets := {
  b_missing : list string;
  b_short : obj;
  b_matched : list string
}.

Definition classify (scannedData : obj) (acc : Buckets) (item : string)
  : Buckets :=
  let actualCount := orZero (read scannedData item) in
  if strictEq actualCount 0 then
    {| b_missing := (b_missing acc ++ [item])%list;
       b_short := b_short acc; b_matched := b_matched acc |}
  else if strictEq actualCount 1 then
    {| b_missing := b_missing acc;
       b_short := b_short acc; b_matched := (b_matched acc ++ [item])%list |}
  else if greater actualCount 1 then
    {| b_missing := b_missing acc;
       b_short := assign (b_short acc) item (toPrimitive actualCount);
       b_matched := b_matched acc |}
  else acc.

(** The body of [Object.keys(scannedData).forEach]. *)
Definition collectExcess (masterList : list string) (scannedData : obj)
    (acc : list ExcessEntry) (item : string) : list ExcessEntry :=
  if negb (includes masterList item) then
    (acc ++ [{| number := item; count := read scannedData item |}])%list
  else acc.

Definition report (masterList : list string) (scannedData : obj) : Report :=
  let b := fold_left (classify scannedData) masterList
             {| b_missing := []; b_short := []; b_matched := [] |} in
  let excess := fold_left (collectExcess masterList scannedData)
                  (Object_keys scannedData) [] in
  let totalScanned :=
    fold_left (fun sum count => plus sum count)
      (Object_values scannedData) (Num 0) in
  {| totalExpected := List.length masterList;
     totalScanned := totalScanned;
     missing := b_missing b;
     excess := excess;
     short := b_short b;
     matched := b_matched b |}.

(** The state update of both scan handlers:
    [prev => ({...prev, [k]: (prev[k] || 0) + 1})]. *)
Definition bump (prev : obj) (k : string) : obj :=
  set prev k (add (orZero (read prev k)) (Val (Num 1))).

(* ================================================================== *)
(** ** Single-column version (BarcodeReconciler.jsx) *)

Module OneColumn.

Record State := { masterList : list string; scannedData : obj }.

Definition initial : State := {| masterList := []; scannedData := [] |}.

(** [parseMasterList], the [complete] callback applied to
    [results.data]; the value handed to [setMasterList]. *)
Definition parseMasterList (data : list (list string)) : list string :=
  let numbers := filter truthy (map trim (List.concat data)) in
  Set_of numbers.

Record KeyEvent := { key : string; value : string }.

(** [handleScan]: the next state and the text left in the input. *)
Definition handleScan (event : KeyEvent) (st : State) : State * string :=
  if String.eqb (key event) "Enter" || String.eqb (key event) "Tab" then
    let scannedNumber := trim (value event) in
    if truthy scannedNumber then
      ({| masterList := masterList st;
          scannedData := bump (scannedData st) scannedNumber |}, "")
    else (st, value event)
  else (st, value event).

(** [handleFileUpload] after a successful parse. *)
Definition handleFileUpload (data : list (list string)) (st : State)
  : State :=
  {| masterList := parseMasterList data; scannedData := scannedData st |}.

(** [disabled={masterList.length > 0}] on the file input. *)
Definition uploadDisabled (st : State) : bool :=
  (0 <? List.length (masterList st))%nat.

Inductive Action :=
| Upload (data : list (list string))
| KeyDown (event : KeyEvent).

Definition step (st : State) (a : Action) : State :=
  match a with
  | Upload data =>
      if uploadDisabled st then st else handleFileUpload data st
  | KeyDown event => fst (handleScan event st)
  end.

Definition run (actions : list Action) : State :=
  fold_left step actions initial.

Definition reportOf (st : State) : Report :=
  report (masterList st) (scannedData st).

End OneColumn.

(* ================================================================== *)
(** ** Two-column version (part_000) *)

Module TwoColumn.

(** [cameraList] is the master list seen by the camera callback that is
    registered with the scanner. *)
Record State := {
  masterList : list string;
  scannedData : obj;
  manualNumber : string;
  isUsingCamera : bool;
  cameraList : list string
}.

Definition initial : State :=
  {| masterList := []; scannedData := []; manualNumber := "";
     isUsingCamera := false; cameraList := [] |}.

Definition comma : ascii := ","%char.

(** The [map] callback of [parseMasterList]; [null] is [None]. *)
Definition rowString (row : list string) : option string :=
  match row with
  | f0 :: f1 :: _ => Some (trim f0 ++ "," ++ trim f1)
  | [f0] => Some (trim f0 ++ ",")
  | [] => None
  end.

(** The [filter] callback: [item && item.split(',')[0]]. *)
Definition keepRow (item : option string) : bool :=
  match item with
  | None => false
  | Some s =>
      truthy s &&
      match at_ (split comma s) 0 with
      | Some h => truthy h
      | None => false
      end
  end.

Definition unwrap (items : list (option string)) : list string :=
  flat_map (fun i => match i with Some s => [s] | None => [] end) items.

Definition parseMasterList (data : list (list string)) : list string :=
  let processedData := unwrap (filter keepRow (map rowString data)) in
  Set_of processedData.

(** The [find] callback of [processNumber]. *)
Definition matchesItem (normalizedNumber item : string) : bool :=
  let parts := map (fun n => toUpperCase (trim n)) (split comma item) in
  let eqOpt (o : option string) :=
    match o with Some s => String.eqb normalizedNumber s | None => false end in
  eqOpt (at_ parts 0) || eqOpt (at_ parts 1).

(** [match.split(',')[0].trim()] *)
Definition instrumentOf (item : string) : string :=
  match at_ (split comma item) 0 with
  | Some h => trim h
  | None => ""
  end.

(** [setScannedData(prev => ({...prev, [k]: (prev[k] || 0) + 1}))] *)
Definition tallied (st : State) (k : string) : State :=
  {| masterList := masterList st;
     scannedData := bump (scannedData st) k;
     manualNumber := manualNumber st;
     isUsingCamera := isUsingCamera st;
     cameraList := cameraList st |}.

(** [processNumber] as a closure over the master list of the render
    that created it; [None] is the bare [return] ([undefined]). *)
Definition processNumberIn (masterList : list string) (number : string)
    (st : State) : option bool * State :=
  if negb (truthy number) then (None, st)
  else
    let normalizedNumber := toUpperCase (trim number) in
    match find_ (matchesItem normalizedNumber) masterList with
    | Some match_ =>
        if truthy match_ then
          let instrumentNumber := instrumentOf match_ in
          (Some true, tallied st instrumentNumber)
        else (Some false, st)
    | None => (Some false, st)
    end.

(** [processNumber] of the current render. *)
Definition processNumber (number : string) (st : State)
  : option bool * State :=
  processNumberIn (masterList st) number st.

(** Truthiness of what [processNumber] returns. *)
Definition accepted (r : option bool) : bool :=
  match r with Some true => true | _ => false end.

Record KeyEvent := { key : string; value : string }.

(** What a handler shows besides the state change. *)
Inductive Feedback := Cleared | AlertNotFound | Nothing.

Definition handleScan (event : KeyEvent) (st : State) : State * Feedback :=
  if String.eqb (key event) "Enter" || String.eqb (key event) "Tab" then
    let scannedNumber := trim (value event) in
    let '(r, st') := processNumber scannedNumber st in
    if accepted r then (st', Cleared) else (st', AlertNotFound)
  else (st, Nothing).

Definition handleManualSubmit (st : State) : State * Feedback :=
  let '(r, st') := processNumber (manualNumber st) st in
  if accepted r then
    ({| masterList := masterList st'; scannedData := scannedData st';
        manualNumber := "";
        isUsingCamera := isUsingCamera st'; cameraList := cameraList st' |},
     Cleared)
  else (st', AlertNotFound).

(** [onScanSuccess] as registered with the scanner: it calls the
    [processNumber] of the render in which the camera was switched
    on, and shows nothing. *)
Definition onScanSuccess (decodedText : string) (st : State) : State :=
  snd (processNumberIn (cameraList st) decodedText st).

(** The camera button, [setIsUsingCamera(!isUsingCamera)], and the
    effect that follows: switching on registers the callback of that
    render, switching off clears the scanner. *)
Definition toggleCamera (st : State) : State :=
  {| masterList := masterList st;
     scannedData := scannedData st;
     manualNumber := manualNumber st;
     isUsingCamera := negb (isUsingCamera st);
     cameraList := if isUsingCamera st then cameraList st
                   else masterList st |}.

(** [handleFileUpload] and [handleDrop] after a successful parse
    (the [uploadedFile] state is not modelled). *)
Definition loadMasterList (data : list (list string)) (st : State)
  : State :=
  {| masterList := parseMasterList data;
     scannedData := scannedData st;
     manualNumber := manualNumber st;
     isUsingCamera := isUsingCamera st;
     cameraList := cameraList st |}.

(** [disabled={masterList.length > 0}] on the file input; the drop
    zone's [onDrop] carries no such guard. *)
Definition uploadDisabled (st : State) : bool :=
  (0 <? List.length (masterList st))%nat.

Inductive Action :=
| Upload (data : list (list string))
| Drop (data : list (list string))
| KeyDown (event : KeyEvent)
| ManualChange (text : string)
| ManualSubmit
| ToggleCamera
| CameraScan (decodedText : string).

(** A camera scan arrives only while the scanner is running. *)
Definition step (st : State) (a : Action) : State :=
  match a with
  | Upload data =>
      if uploadDisabled st then st else loadMasterList data st
  | Drop data => loadMasterList data st
  | KeyDown event => fst (handleScan event st)
  | ManualChange text =>
      {| masterList := masterList st; scannedData := scannedData st;
         manualNumber := text;
         isUsingCamera := isUsingCamera st; cameraList := cameraList st |}
  | ManualSubmit => fst (handleManualSubmit st)
  | ToggleCamera => toggleCamera st
  | CameraScan decodedText =>
      if isUsingCamera st then onScanSuccess decodedText st else st
  end.

Definition run (actions : list Action) : State :=
  fold_left step actions initial.

Definition reportOf (st : State) : Report :=
  report (masterList st) (scannedData st).

End TwoColumn.

(* ================================================================== *)
(** ** Definitions used in the statements *)

Local Open Scope list_scope.

(** *** Strings *)

Definition headWhite (s : string) : bool :=
  match s with EmptyString => false | String c _ => isWhite c end.

(** Empty or made of white space only. *)
Fixpoint isBlank (s : string) : bool :=
  match s with
  | EmptyString => true
  | String c r => isWhite c && isBlank r
  end.

Fixpoint hasComma (s : string) : bool :=
  match s with
  | EmptyString => false
  | String c r => Ascii.eqb c TwoColumn.comma || hasComma r
  end.

(** No element is the name of a property of [Object.prototype]. *)
Definition noProtoNames (l : list string) : bool :=
  forallb (fun k => negb (isProtoName k)) l.

(** *** Reading a tally *)

Definition isNum (v : stored) : bool :=
  match v with Num _ => true | Str _ => false end.

(** The count of a stored number; a stored string counts for nothing. *)
Definition numOf (v : stored) : nat :=
  match v with Num n => n | Str _ => 0 end.

(** The number stored under the own key [k]; 0 when there is none. *)
Definition countOf (o : obj) (k : string) : nat :=
  match get o k with Some v => numOf v | None => 0 end.

(** A string that begins with the text of a function or of
    [Object.prototype]: it is not empty and converts to no number. *)
Definition isText (v : stored) : bool :=
  match v with
  | Str (FunctionText _ :: _) => true
  | Str (ObjectText :: _) => true
  | _ => false
  end.

(** What a session can store under a key: nothing under the empty
    key, a number of at least 1 under an ordinary key, a text under
    the name of a property of [Object.prototype]. *)
Definition entryOK (kv : string * stored) : bool :=
  truthy (fst kv) &&
  (if isProtoName (fst kv) then isText (snd kv)
   else match snd kv with Num (S _) => true | _ => false end).

Definition tallyOK (o : obj) : bool := forallb entryOK o.

(** *** Reading a report *)

(** [scannedData[item] || 0], the [actualCount] of the report. *)
Definition actualCount (scannedData : obj) (item : string) : operand :=
  orZero (read scannedData item).

(** The count read for [item] is a number. *)
Definition numericAt (scannedData : obj) (item : string) : Prop :=
  exists n, actualCount scannedData item = Val (Num n).

(** The three tests of [classify] on the count of an item. *)
Definition isMissing (scannedData : obj) (item : string) : bool :=
  strictEq (actualCount scannedData item) 0.

Definition isMatched (scannedData : obj) (item : string) : bool :=
  strictEq (actualCount scannedData item) 1.

Definition isShort (scannedData : obj) (item : string) : bool :=
  greater (actualCount scannedData item) 1.

(** [short[item] = actualCount] *)
Definition putShort (scannedData : obj) (o : obj) (item : string) : obj :=
  assign o item (toPrimitive (actualCount scannedData item)).

(** The object pushed onto [excess] for a key. *)
Definition excessEntry (scannedData : obj) (item : string) : ExcessEntry :=
  {| number := item; count := read scannedData item |}.

Definition inShort (r : Report) (item : string) : Prop :=
  In item (Object_keys (short r)).

Definition exactlyOneBucket (r : Report) (item : string) : Prop :=
  (In item (matched r) /\ ~ inShort r item /\ ~ In item (missing r)) \/
  (~ In item (matched r) /\ inShort r item /\ ~ In item (missing r)) \/
  (~ In item (matched r) /\ ~ inShort r item /\ In item (missing r)).

(** The three expected-item buckets of a report partition the list
    [items]: each item is in exactly one bucket, the buckets hold
    nothing else and nothing twice, and their sizes add up. *)
Definition partitions (items : list string) (r : Report) : Prop :=
  (forall item, In item items -> exactlyOneBucket r item) /\
  (forall item,
      In item (matched r) \/ inShort r item \/ In item (missing r) ->
      In item items) /\
  NoDup (matched r) /\ NoDup (Object_keys (short r)) /\ NoDup (missing r) /\
  List.length (missing r) + List.length (matched r)
    + List.length (Object_keys (short r)) = totalExpected r.

(** Sum of the tally counts whose key is a catalog item. *)
Definition resolvedSum (masterList : list string) (scannedData : obj) : nat :=
  list_sum (map (fun kv => numOf (snd kv))
              (filter (fun kv => includes masterList (fst kv)) scannedData)).

(** The number held by the [count] of an excess entry. *)
Definition entryCount (e : ExcessEntry) : nat :=
  match count e with
  | Some (Val v) => numOf v
  | _ => 0
  end.

(** Sum of the counts listed in the excess bucket. *)
Definition excessSum (r : Report) : nat := list_sum (map entryCount (excess r)).

(** *** The report as updates of a memory

    The memory the [report] callback runs over: the two state values it
    reads and the four local accumulators it fills.  Each loop body is
    a memory update, as the [push] calls and the [short[item] = ...]
    assignment are in the source. *)
Record Frame := {
  f_masterList : list string;
  f_scannedData : obj;
  f_missing : list string;
  f_excess : list ExcessEntry;
  f_short : obj;
  f_matched : list string
}.

Definition visitItem (m : Frame) (item : string) : Frame :=
  let actualCount := orZero (read (f_scannedData m) item) in
  if strictEq actualCount 0 then
    {| f_masterList := f_masterList m; f_scannedData := f_scannedData m;
       f_missing := f_missing m ++ [item]; f_excess := f_excess m;
       f_short := f_short m; f_matched := f_matched m |}
  else if strictEq actualCount 1 then
    {| f_masterList := f_masterList m; f_scannedData := f_scannedData m;
       f_missing := f_missing m; f_excess := f_excess m;
       f_short := f_short m; f_matched := f_matched m ++ [item] |}
  else if greater actualCount 1 then
    {| f_masterList := f_masterList m; f_scannedData := f_scannedData m;
       f_missing := f_missing m; f_excess := f_excess m;
       f_short := assign (f_short m) item (toPrimitive actualCount);
       f_matched := f_matched m |}
  else m.

Definition visitKey (m : Frame) (item : string) : Frame :=
  if negb (includes (f_masterList m) item) then
    {| f_masterList := f_masterList m; f_scannedData := f_scannedData m;
       f_missing := f_missing m;
       f_excess := f_excess m
                   ++ [{| number := item;
                          count := read (f_scannedData m) item |}];
       f_short := f_short m; f_matched := f_matched m |}
  else m.

Definition reportFrame (masterList : list string) (scannedData : obj)
  : Frame :=
  let m0 := {| f_masterList := masterList; f_scannedData := scannedData;
               f_missing := []; f_excess := []; f_short := [];
               f_matched := [] |} in
  let m1 := fold_left visitItem (f_masterList m0) m0 in
  fold_left visitKey (Object_keys (f_scannedData m1)) m1.

(** *** States and actions *)

(** What holds in every reachable state: the master list (and the one
    the camera callback keeps) was built by [parseMasterList], and the
    tally has unique keys. *)
Definition OneColumn_inv (st : OneColumn.State) : Prop :=
  (exists data, OneColumn.masterList st = OneColumn.parseMasterList data) /\
  wf (OneColumn.scannedData st).

Definition TwoColumn_inv (st : TwoColumn.State) : Prop :=
  (exists data, TwoColumn.masterList st = TwoColumn.parseMasterList data) /\
  (exists data, TwoColumn.cameraList st = TwoColumn.parseMasterList data) /\
  wf (TwoColumn.scannedData st).

(** A value and what a later scan can make of it: a number grows, a
    string is extended on the right, an empty string is replaced by a
    number. *)
Inductive vle : stored -> stored -> Prop :=
| vle_num (n m : nat) : n <= m -> vle (Num n) (Num m)
| vle_str (p q : list piece) : vle (Str p) (Str (p ++ q))
| vle_empty (m : nat) : vle (Str []) (Num m).

(** Every key of [o] is still a key of [o'], with a value at least as
    large: a count is never decreased. *)
Definition grows (o o' : obj) : Prop :=
  forall k v, get o k = Some v -> exists v', get o' k = Some v' /\ vle v v'.

(** The actions that reach a scan handler. *)
Definition OneColumn_isScan (a : OneColumn.Action) : bool :=
  match a with OneColumn.KeyDown _ => true | _ => false end.

Definition TwoColumn_isScan (a : TwoColumn.Action) : bool :=
  match a with
  | TwoColumn.KeyDown _ | TwoColumn.ManualSubmit | TwoColumn.CameraScan _ => true
  | _ => false
  end.

(** The actions that load a master list. *)
Definition TwoColumn_isLoad (a : TwoColumn.Action) : bool :=
  match a with
  | TwoColumn.Upload _ | TwoColumn.Drop _ => true
  | _ => false
  end.

(** A stretch of the session in which no master list is loaded. *)
Definition TwoColumn_noLoad (acts : list TwoColumn.Action) : bool :=
  forallb (fun a => negb (TwoColumn_isLoad a)) acts.

(** No file is dropped on the drop zone. *)
Definition TwoColumn_noDrop (acts : list TwoColumn.Action) : bool :=
  forallb (fun a => match a with TwoColumn.Drop _ => false | _ => true end)
    acts.

(** The scan events of the single-column version that are recorded. *)
Definition OneColumn_recorded (a : OneColumn.Action) : bool :=
  match a with
  | OneColumn.Upload _ => false
  | OneColumn.KeyDown ev =>
      (String.eqb (OneColumn.key ev) "Enter"
       || String.eqb (OneColumn.key ev) "Tab")
      && truthy (trim (OneColumn.value ev))
  end.

(** ... and those recorded under the key [item]. *)
Definition OneColumn_recordedAs (item : string) (a : OneColumn.Action) : bool :=
  OneColumn_recorded a &&
  match a with
  | OneColumn.KeyDown ev => String.eqb (trim (OneColumn.value ev)) item
  | _ => false
  end.

(** [st'] has the tally of [st], or the tally of [st] with one more
    scan for the instrument number of a non-empty row that some scanned
    text matched first, in the master list of [st] or in the one its
    camera callback keeps. *)
Definition TwoColumn_tallyStep (st st' : TwoColumn.State) : Prop :=
  TwoColumn.scannedData st' = TwoColumn.scannedData st \/
  exists number item rows,
    (rows = TwoColumn.masterList st \/ rows = TwoColumn.cameraList st) /\
    find_ (TwoColumn.matchesItem (toUpperCase (trim number))) rows
    = Some item /\
    item <> "" /\
    TwoColumn.scannedData st'
    = bump (TwoColumn.scannedData st) (TwoColumn.instrumentOf item).

Definition keysNoComma (o : obj) : Prop :=
  forall k, In k (Object_keys o) -> hasComma k = false.



(** The second comma-separated piece of a row is empty after trimming. *)
Definition serialEmpty (item : string) : bool :=
  match at_ (split TwoColumn.comma item) 1 with
  | Some s => negb (truthy (trim s))
  | None => false
  end.

(** The action is a scan that the two-column version accepts in [st]:
    the handler clears the input, or the running camera callback gets
    [true]. *)
Definition TwoColumn_succeeded (st : TwoColumn.State) (a : TwoColumn.Action)
  : bool :=
  match a with
  | TwoColumn.KeyDown ev =>
      match snd (TwoColumn.handleScan ev st) with
      | TwoColumn.Cleared => true
      | _ => false
      end
  | TwoColumn.ManualSubmit =>
      match snd (TwoColumn.handleManualSubmit st) with
      | TwoColumn.Cleared => true
      | _ => false
      end
  | TwoColumn.CameraScan decodedText =>
      TwoColumn.isUsingCamera st &&
      TwoColumn.accepted
        (fst (TwoColumn.processNumberIn (TwoColumn.cameraList st)
                decodedText st))
  | _ => false
  end.

(** How many actions of [acts], run from [st], are accepted scans. *)
Fixpoint TwoColumn_succeededCount (acts : list TwoColumn.Action)
    (st : TwoColumn.State) : nat :=
  match acts with
  | [] => 0
  | a :: rest =>
      (if TwoColumn_succeeded st a then 1 else 0)
      + TwoColumn_succeededCount rest (TwoColumn.step st a)
  end.


(** *** The catalog build as the specification words it

    For comparison with [TwoColumn.parseMasterList]: a row with one
    field is (primaryId = field0, no secondaryId), a row with two or
    more fields is (primaryId = field0, secondaryId = field1), every
    field is trimmed, a row with an empty primaryId is dropped, and
    rows are deduplicated by the string "primaryId,secondaryId". *)
Record ExpectedItem := { primaryId : string; secondaryId : option string }.

Definition specRow (row : list string) : list ExpectedItem :=
  match row with
  | [] => []
  | [f0] => [{| primaryId := trim f0; secondaryId := None |}]
  | f0 :: f1 :: _ =>
      [{| primaryId := trim f0; secondaryId := Some (trim f1) |}]
  end.

Definition specKeep (it : ExpectedItem) : bool := truthy (primaryId it).

Definition specRender (it : ExpectedItem) : string :=
  (primaryId it ++ ","
   ++ match secondaryId it with Some s => s | None => "" end)%string.

Definition specBuild (rows : list (list string)) : list string :=
  Set_of (map specRender (filter specKeep (flat_map specRow rows))).



(** *** Concrete sessions used below *)

Definition c3_catalog : list (list string) := [["INST-1"; "SN-99"]].

Definition c3_scan : TwoColumn.Action :=
  TwoColumn.KeyDown {| TwoColumn.key := "Enter"; TwoColumn.value := "INST-1" |}.

Definition c5_catalog : list (list string) := [["INST-1"]].

(* ================================================================== *)
(** ** Sanity checks on concrete inputs *)

Example trim_ex : trim "  ab c  " = "ab c".
Proof. reflexivity. Qed.

Example split_ex : split TwoColumn.comma "a,b,,c" = ["a"; "b"; ""; "c"].
Proof. reflexivity. Qed.

Example split_ex2 : split TwoColumn.comma "A," = ["A"; ""].
Proof. reflexivity. Qed.

Example upper_ex : toUpperCase "inst-1z" = "INST-1Z".
Proof. reflexivity. Qed.

Example set_of_ex : Set_of ["b"; "a"; "b"; "c"; "a"] = ["b"; "a"; "c"].
Proof. reflexivity. Qed.

Example bump_plain_ex : bump (bump [] "A") "A" = [("A", Num 2)].
Proof. reflexivity. Qed.

Example bump_inherited_ex :
  bump (bump [] "toString") "toString"
  = [("toString", Str [FunctionText "toString"; Digits 1; Digits 1])].
Proof. reflexivity. Qed.

Example greater_ex :
  greater (Val (Str [Digits 1; Digits 0])) 1 = true /\
  greater (Val (Str [Digits 0; Digits 1])) 1 = false /\
  greater (Fn "toString") 1 = false.
Proof. repeat split; reflexivity. Qed.

(* ================================================================== *)
(** ** Lemmas on the JavaScript primitives *)

Section ObjectFacts.

Lemma includes_In (l : list string) (x : string) :
  includes l x = true <-> In x l.
Proof.
  unfold includes. rewrite existsb_exists. split.
  - intros [y [Hy Heq]]. apply String.eqb_eq in Heq. now subst.
  - intros H. exists x. split; [assumption | apply String.eqb_refl].
Qed.

Lemma includes_false (l : list string) (x : string) :
  includes l x = false <-> ~ In x l.
Proof.
  rewrite <- includes_In. destruct (includes l x); split; congruence.
Qed.

Lemma get_set_same (o : obj) (k : string) (v : stored) :
  get (set o k v) k = Some v.
Proof.
  induction o as [|[k' v'] r IH]; simpl.
  - now rewrite String.eqb_refl.
  - destruct (String.eqb k' k) eqn:E; simpl; rewrite E; auto.
Qed.

Lemma get_set_other (o : obj) (k k' : string) (v : stored) :
  k <> k' -> get (set o k v) k' = get o k'.
Proof.
  intros Hne. induction o as [|[k0 v0] r IH]; simpl.
  - destruct (String.eqb_spec k k'); congruence.
  - destruct (String.eqb_spec k0 k) as [->|Hk]; simpl.
    + destruct (String.eqb_spec k k'); congruence.
    + now rewrite IH.
Qed.

Lemma get_None_keys (o : obj) (k : string) :
  get o k = None <-> ~ In k (Object_keys o).
Proof.
  induction o as [|[k' v'] r IH]; simpl.
  - intuition.
  - destruct (String.eqb_spec k' k) as [->|Hk].
    + split; [discriminate | intros H; exfalso; apply H; now left].
    + rewrite IH. intuition.
Qed.

Lemma get_Some_keys (o : obj) (k : string) (v : stored) :
  get o k = Some v -> In k (Object_keys o).
Proof.
  intros H. destruct (in_dec string_dec k (Object_keys o)) as [Hin|Hn];
    [assumption|]. apply get_None_keys in Hn. congruence.
Qed.

Lemma get_In (o : obj) (k : string) (v : stored) :
  get o k = Some v -> In (k, v) o.
Proof.
  induction o as [|[k' v'] r IH]; simpl; [discriminate|].
  destruct (String.eqb_spec k' k) as [->|Hk].
  - intros E. inversion E. now left.
  - intros E. right. now apply IH.
Qed.

Lemma keys_set_present (o : obj) (k : string) (v : stored) :
  In k (Object_keys o) -> Object_keys (set o k v) = Object_keys o.
Proof.
  induction o as [|[k' v'] r IH]; simpl; [tauto|].
  intros H. destruct (String.eqb_spec k' k) as [->|Hk]; simpl; [reflexivity|].
  f_equal. apply IH. destruct H; congruence.
Qed.

Lemma keys_set_absent (o : obj) (k : string) (v : stored) :
  ~ In k (Object_keys o) -> Object_keys (set o k v) = Object_keys o ++ [k].
Proof.
  induction o as [|[k' v'] r IH]; simpl; [reflexivity|].
  intros H. destruct (String.eqb_spec k' k) as [->|Hk]; simpl.
  - exfalso. apply H. now left.
  - f_equal. apply IH. tauto.
Qed.

Lemma In_keys_set (o : obj) (k k' : string) (v : stored) :
  In k' (Object_keys (set o k v)) <-> k' = k \/ In k' (Object_keys o).
Proof.
  destruct (in_dec string_dec k (Object_keys o)) as [Hin|Hn].
  - rewrite keys_set_present by assumption. intuition congruence.
  - rewrite keys_set_absent by assumption. rewrite in_app_iff. simpl.
    intuition congruence.
Qed.

Lemma wf_set (o : obj) (k : string) (v : stored) : wf o -> wf (set o k v).
Proof.
  unfold wf. intros H.
  destruct (in_dec string_dec k (Object_keys o)) as [Hin|Hn].
  - now rewrite keys_set_present.
  - rewrite keys_set_absent by assumption.
    apply NoDup_app; [assumption | repeat constructor; simpl; tauto |].
    intros x Hx [<-|[]]. contradiction.
Qed.

Lemma wf_bump (o : obj) (k : string) : wf o -> wf (bump o k).
Proof. apply wf_set. Qed.

Lemma read_set_other (o : obj) (k k' : string) (v : stored) :
  k <> k' -> read (set o k v) k' = read o k'.
Proof. intros H. unfold read. now rewrite get_set_other. Qed.

Lemma get_bump_same (o : obj) (k : string) :
  get (bump o k) k = Some (add (orZero (read o k)) (Val (Num 1))).
Proof. apply get_set_same. Qed.

Lemma get_bump_other (o : obj) (k k' : string) :
  k <> k' -> get (bump o k) k' = get o k'.
Proof. intros H. now apply get_set_other. Qed.

Lemma read_bump_other (o : obj) (k k' : string) :
  k <> k' -> read (bump o k) k' = read o k'.
Proof. intros H. now apply read_set_other. Qed.

Lemma countOf_bump_other (o : obj) (k k' : string) :
  k <> k' -> countOf (bump o k) k' = countOf o k'.
Proof. intros H. unfold countOf. now rewrite get_bump_other. Qed.

(** A name inherited from [Object.prototype] holds no comma and is not
    empty. *)
Lemma protoName_cases (k : string) :
  isProtoName k = true -> In k ("__proto__" :: protoFunctions).
Proof.
  unfold isProtoName. intros H. apply orb_true_iff in H as [H|H].
  - right. now apply includes_In.
  - left. apply String.eqb_eq in H. now subst.
Qed.

Lemma inherited_plain (k : string) :
  isProtoName k = false -> inherited k = None.
Proof.
  unfold isProtoName, inherited. intros H.
  apply orb_false_iff in H as [H1 H2]. now rewrite H1, H2.
Qed.

Lemma inherited_proto (k : string) :
  isProtoName k = true ->
  inherited k = Some (Fn k) \/ inherited k = Some ObjectPrototype.
Proof.
  unfold isProtoName, inherited. intros H.
  destruct (includes protoFunctions k); [now left|].
  simpl in H. rewrite H. now right.
Qed.

(** *** What the tally of a session holds *)

Lemma forallb_set (p : string * stored -> bool) (o : obj) (k : string)
    (v : stored) :
  forallb p o = true -> p (k, v) = true -> forallb p (set o k v) = true.
Proof.
  intros Ho Hv. induction o as [|[k' v'] r IH]; simpl in *.
  - now rewrite Hv.
  - apply andb_true_iff in Ho as [H1 H2].
    destruct (String.eqb_spec k' k) as [->|Hk]; simpl.
    + now rewrite Hv, H2.
    + now rewrite H1, IH.
Qed.

Lemma tallyOK_get (o : obj) (k : string) (v : stored) :
  tallyOK o = true -> get o k = Some v -> entryOK (k, v) = true.
Proof.
  intros H G. apply get_In in G.
  unfold tallyOK in H. rewrite forallb_forall in H. now apply H.
Qed.

(** Under an ordinary key a session stores a number of at least 1. *)
Lemma tallyOK_plain (o : obj) (k : string) (v : stored) :
  tallyOK o = true -> isProtoName k = false -> get o k = Some v ->
  exists n, v = Num (S n).
Proof.
  intros H P G. pose proof (tallyOK_get o k v H G) as E.
  unfold entryOK in E. simpl in E. rewrite P in E.
  apply andb_true_iff in E as [_ E].
  destruct v as [[|n]|ps]; try discriminate. now exists n.
Qed.

(** Under a name of [Object.prototype] it stores a text. *)
Lemma tallyOK_proto (o : obj) (k : string) (v : stored) :
  tallyOK o = true -> isProtoName k = true -> get o k = Some v ->
  isText v = true.
Proof.
  intros H P G. pose proof (tallyOK_get o k v H G) as E.
  unfold entryOK in E. simpl in E. rewrite P in E.
  now apply andb_true_iff in E as [_ E].
Qed.

Lemma tallyOK_bump (o : obj) (k : string) :
  tallyOK o = true -> k <> "" -> tallyOK (bump o k) = true.
Proof.
  intros H Hk. unfold bump. apply forallb_set; [exact H|].
  unfold entryOK. simpl.
  assert (T : truthy k = true) by (destruct k; [contradiction | reflexivity]).
  rewrite T. simpl. unfold read.
  destruct (isProtoName k) eqn:P.
  - destruct (get o k) as [v|] eqn:G.
    + pose proof (tallyOK_proto o k v H P G) as Tx.
      destruct v as [n|[|[d|f|] ps]]; try discriminate; reflexivity.
    + destruct (inherited_proto k P) as [E|E]; rewrite E; reflexivity.
  - destruct (get o k) as [v|] eqn:G.
    + destruct (tallyOK_plain o k v H P G) as [n ->]. reflexivity.
    + now rewrite (inherited_plain k P).
Qed.

(** The count read for an ordinary item in a session tally is the
    number stored for it, or 0. *)
Lemma actualCount_plain (o : obj) (k : string) :
  tallyOK o = true -> isProtoName k = false ->
  actualCount o k = Val (Num (countOf o k)).
Proof.
  intros H P. unfold actualCount, countOf, read.
  destruct (get o k) as [v|] eqn:G.
  - destruct (tallyOK_plain o k v H P G) as [n ->]. reflexivity.
  - now rewrite (inherited_plain k P).
Qed.

Lemma get_bump_plain (o : obj) (k : string) :
  tallyOK o = true -> isProtoName k = false ->
  get (bump o k) k = Some (Num (countOf o k + 1)).
Proof.
  intros H P. rewrite get_bump_same.
  fold (actualCount o k). now rewrite (actualCount_plain o k H P).
Qed.

Lemma countOf_bump_plain (o : obj) (k : string) :
  tallyOK o = true -> isProtoName k = false ->
  countOf (bump o k) k = countOf o k + 1.
Proof.
  intros H P. unfold countOf at 1. now rewrite (get_bump_plain o k H P).
Qed.

(** With no name of [Object.prototype] among its keys, a session tally
    holds numbers only. *)
Lemma tallyOK_allNum (o : obj) :
  tallyOK o = true -> noProtoNames (Object_keys o) = true ->
  forallb (fun kv => isNum (snd kv)) o = true.
Proof.
  unfold tallyOK, noProtoNames, Object_keys.
  induction o as [|[k v] r IH]; simpl; [reflexivity|].
  intros H P. apply andb_true_iff in H as [H1 H2].
  apply andb_true_iff in P as [P1 P2]. rewrite (IH H2 P2).
  unfold entryOK in H1. simpl in H1. apply negb_true_iff in P1.
  rewrite P1 in H1. apply andb_true_iff in H1 as [_ H1].
  destruct v as [[|n]|ps]; try discriminate. reflexivity.
Qed.

(** The reducer of [totalScanned] over numbers is a plain sum. *)
Lemma reduce_plus (l : list stored) (a : nat) :
  forallb isNum l = true ->
  fold_left (fun sum count => plus sum count) l (Num a)
  = Num (a + list_sum (map numOf l)).
Proof.
  revert a. induction l as [|x l IH]; intros a H; simpl.
  - f_equal. lia.
  - simpl in H. apply andb_true_iff in H as [Hx Hl].
    destruct x as [n|ps]; [|discriminate]. simpl.
    rewrite (IH _ Hl). f_equal. lia.
Qed.

Lemma sum_values_set (o : obj) (k : string) (v : stored) :
  list_sum (map numOf (Object_values (set o k v))) + countOf o k
  = list_sum (map numOf (Object_values o)) + numOf v.
Proof.
  unfold countOf. induction o as [|[k' v'] r IH]; simpl; [lia|].
  destruct (String.eqb_spec k' k) as [->|Hk]; simpl; lia.
Qed.

Lemma sum_values_bump (o : obj) (k : string) :
  tallyOK o = true -> isProtoName k = false ->
  list_sum (map numOf (Object_values (bump o k)))
  = list_sum (map numOf (Object_values o)) + 1.
Proof.
  intros H P. unfold bump. fold (actualCount o k).
  rewrite (actualCount_plain o k H P).
  change (add (Val (Num (countOf o k))) (Val (Num 1)))
    with (Num (countOf o k + 1)).
  pose proof (sum_values_set o k (Num (countOf o k + 1))) as S.
  simpl in S. lia.
Qed.

End ObjectFacts.

Section SetFacts.

Lemma In_Set_add (s : list string) (x y : string) :
  In y (Set_add s x) <-> y = x \/ In y s.
Proof.
  unfold Set_add. destruct (includes s x) eqn:E.
  - apply includes_In in E. intuition congruence.
  - rewrite in_app_iff. simpl. intuition congruence.
Qed.

Lemma NoDup_Set_add (s : list string) (x : string) :
  NoDup s -> NoDup (Set_add s x).
Proof.
  intros H. unfold Set_add. destruct (includes s x) eqn:E; [assumption|].
  apply includes_false in E.
  apply NoDup_app; [assumption | repeat constructor; simpl; tauto |].
  intros y Hy [<-|[]]. contradiction.
Qed.

Lemma NoDup_fold_Set_add (xs s : list string) :
  NoDup s -> NoDup (fold_left Set_add xs s).
Proof.
  revert s. induction xs as [|x xs IH]; intros s H; simpl; [assumption|].
  apply IH. now apply NoDup_Set_add.
Qed.

Lemma In_fold_Set_add (xs s : list string) (y : string) :
  In y (fold_left Set_add xs s) <-> In y s \/ In y xs.
Proof.
  revert s. induction xs as [|x xs IH]; intros s; simpl; [tauto|].
  rewrite IH, In_Set_add. intuition congruence.
Qed.

Lemma NoDup_Set_of (xs : list string) : NoDup (Set_of xs).
Proof. apply NoDup_fold_Set_add. constructor. Qed.

Lemma In_Set_of (xs : list string) (y : string) :
  In y (Set_of xs) <-> In y xs.
Proof. unfold Set_of. rewrite In_fold_Set_add. simpl. tauto. Qed.

End SetFacts.

(* ================================================================== *)
(** ** The report as three filters of the master list *)

Section ReportFacts.

Variable scannedData : obj.

(** The three tests exclude one another; an operand that is no number
    of the three kinds passes none. *)
Lemma bucket_exclusive (item : string) :
  (isMissing scannedData item = true ->
   isMatched scannedData item = false /\ isShort scannedData item = false) /\
  (isMatched scannedData item = true ->
   isMissing scannedData item = false /\ isShort scannedData item = false) /\
  (isShort scannedData item = true ->
   isMissing scannedData item = false /\ isMatched scannedData item = false).
Proof.
  unfold isMissing, isMatched, isShort, strictEq, greater, toNumber.
  destruct (actualCount scannedData item) as [[[|[|n]]|ps]|f|]; simpl;
    (split; [|split]); intros H; try discriminate H; split; reflexivity.
Qed.

(** When the count read is a number, exactly one test passes. *)
Lemma bucket_cases (item : string) :
  numericAt scannedData item ->
  (isMissing scannedData item = true /\ isMatched scannedData item = false /\
   isShort scannedData item = false) \/
  (isMissing scannedData item = false /\ isMatched scannedData item = true /\
   isShort scannedData item = false) \/
  (isMissing scannedData item = false /\ isMatched scannedData item = false /\
   isShort scannedData item = true).
Proof.
  intros [n E]. unfold isMissing, isMatched, isShort. rewrite E.
  destruct n as [|[|n]]; simpl; auto.
Qed.

Lemma classify_fold (l : list string) (acc : Buckets) :
  fold_left (classify scannedData) l acc =
  {| b_missing := b_missing acc ++ filter (isMissing scannedData) l;
     b_short := fold_left (putShort scannedData)
                  (filter (isShort scannedData) l) (b_short acc);
     b_matched := b_matched acc ++ filter (isMatched scannedData) l |}.
Proof.
  revert acc. induction l as [|x l IH]; intros [m s t]; simpl.
  - now rewrite !app_nil_r.
  - rewrite IH. unfold classify. fold (actualCount scannedData x).
    fold (isMissing scannedData x) (isMatched scannedData x)
         (isShort scannedData x).
    destruct (bucket_exclusive x) as (E0 & E1 & E2).
    destruct (isMissing scannedData x) eqn:H0.
    { destruct (E0 eq_refl) as [-> ->]. simpl.
      now rewrite <- app_assoc. }
    destruct (isMatched scannedData x) eqn:H1.
    { destruct (E1 eq_refl) as [_ ->]. simpl.
      now rewrite <- app_assoc. }
    destruct (isShort scannedData x) eqn:H2; reflexivity.
Qed.

Lemma assign_plain (o : obj) (k : string) (v : stored) :
  k <> "__proto__" -> assign o k v = set o k v.
Proof.
  intros H. unfold assign. destruct (String.eqb_spec k "__proto__");
    [contradiction | reflexivity].
Qed.

Lemma keys_putShort_fresh (l : list string) (o : obj) :
  ~ In "__proto__" l ->
  NoDup (Object_keys o ++ l) ->
  Object_keys (fold_left (putShort scannedData) l o) = Object_keys o ++ l.
Proof.
  revert o. induction l as [|x l IH]; intros o P H; simpl.
  - now rewrite app_nil_r.
  - assert (Hx : ~ In x (Object_keys o)).
    { intros Hin. apply NoDup_remove_2 in H. apply H.
      apply in_or_app. now left. }
    assert (Px : x <> "__proto__") by (intros ->; apply P; now left).
    assert (Pl : ~ In "__proto__" l) by (intros Hin; apply P; now right).
    assert (E : putShort scannedData o x
                = set o x (toPrimitive (actualCount scannedData x)))
      by (unfold putShort; now rewrite assign_plain).
    rewrite E, IH.
    + rewrite keys_set_absent by assumption. now rewrite <- app_assoc.
    + assumption.
    + rewrite keys_set_absent by assumption. now rewrite <- app_assoc.
Qed.

(** Reading [short] back, for a key other than ["__proto__"]. *)
Lemma get_putShort_notin (l : list string) (o : obj) (k : string) :
  ~ In k l -> get (fold_left (putShort scannedData) l o) k = get o k.
Proof.
  revert o. induction l as [|x l IH]; intros o H; simpl; [reflexivity|].
  simpl in H. rewrite IH by tauto.
  unfold putShort, assign. destruct (String.eqb x "__proto__"); [reflexivity|].
  apply get_set_other. tauto.
Qed.

Lemma get_putShort (l : list string) (o : obj) (k : string) :
  k <> "__proto__" -> In k l ->
  get (fold_left (putShort scannedData) l o) k
  = Some (toPrimitive (actualCount scannedData k)).
Proof.
  intros P. revert o. induction l as [|x l IH]; intros o; simpl; [tauto|].
  intros Hin. destruct (in_dec string_dec k l) as [Hl|Hl]; [now apply IH|].
  destruct Hin as [->|Hin]; [|contradiction].
  rewrite get_putShort_notin by assumption.
  unfold putShort. rewrite assign_plain by assumption. apply get_set_same.
Qed.

(** The key ["__proto__"] never becomes an own key of [short]. *)
Lemma get_putShort_proto (l : list string) (o : obj) :
  get (fold_left (putShort scannedData) l o) "__proto__" = get o "__proto__".
Proof.
  revert o. induction l as [|x l IH]; intros o; simpl; [reflexivity|].
  rewrite IH. unfold putShort, assign.
  destruct (String.eqb_spec x "__proto__") as [->|Hx]; [reflexivity|].
  now apply get_set_other.
Qed.

End ReportFacts.

Lemma forallb_values (p : stored -> bool) (o : obj) :
  forallb p (Object_values o) = forallb (fun kv => p (snd kv)) o.
Proof.
  unfold Object_values. induction o as [|kv o IH]; simpl; [reflexivity|].
  now rewrite IH.
Qed.

Section ReportProjections.

Variables (masterList : list string) (scannedData : obj).

Lemma report_missing :
  missing (report masterList scannedData)
  = filter (isMissing scannedData) masterList.
Proof. unfold report. simpl. now rewrite classify_fold. Qed.

Lemma report_matched :
  matched (report masterList scannedData)
  = filter (isMatched scannedData) masterList.
Proof. unfold report. simpl. now rewrite classify_fold. Qed.

Lemma report_short :
  short (report masterList scannedData)
  = fold_left (putShort scannedData)
      (filter (isShort scannedData) masterList) [].
Proof. unfold report. simpl. now rewrite classify_fold. Qed.

Lemma report_short_keys :
  NoDup masterList -> ~ In "__proto__" masterList ->
  Object_keys (short (report masterList scannedData))
  = filter (isShort scannedData) masterList.
Proof.
  intros H P. rewrite report_short, keys_putShort_fresh; [reflexivity| |].
  - intros Hin. apply P. now apply filter_In in Hin as [Hin _].
  - simpl. now apply NoDup_filter.
Qed.

Lemma report_short_get (item : string) :
  item <> "__proto__" ->
  In item masterList -> isShort scannedData item = true ->
  get (short (report masterList scannedData)) item
  = Some (toPrimitive (actualCount scannedData item)).
Proof.
  intros P Hin Hs. rewrite report_short. apply get_putShort; [assumption|].
  apply filter_In. now split.
Qed.

Lemma collectExcess_fold (keys : list string) (acc : list ExcessEntry) :
  fold_left (collectExcess masterList scannedData) keys acc
  = acc ++ map (excessEntry scannedData)
             (filter (fun k => negb (includes masterList k)) keys).
Proof.
  revert acc. induction keys as [|k keys IH]; intros acc; simpl.
  - now rewrite app_nil_r.
  - rewrite IH. unfold collectExcess.
    destruct (negb (includes masterList k)); simpl;
      [now rewrite <- app_assoc | reflexivity].
Qed.

Lemma report_excess :
  excess (report masterList scannedData)
  = map (excessEntry scannedData)
      (filter (fun k => negb (includes masterList k))
         (Object_keys scannedData)).
Proof. unfold report. simpl. now rewrite collectExcess_fold. Qed.

Lemma report_totalScanned :
  totalScanned (report masterList scannedData)
  = fold_left (fun sum count => plus sum count)
      (Object_values scannedData) (Num 0).
Proof. reflexivity. Qed.

(** With numbers only in the tally the total is their sum. *)
Lemma report_totalScanned_num :
  forallb (fun kv => isNum (snd kv)) scannedData = true ->
  totalScanned (report masterList scannedData)
  = Num (list_sum (map numOf (Object_values scannedData))).
Proof.
  intros H. rewrite report_totalScanned, reduce_plus; [reflexivity|].
  now rewrite forallb_values.
Qed.

End ReportProjections.

Lemma three_filters_length (sd : obj) (l : list string) :
  (forall item, In item l -> numericAt sd item) ->
  List.length (filter (isMissing sd) l) + List.length (filter (isMatched sd) l)
    + List.length (filter (isShort sd) l) = List.length l.
Proof.
  induction l as [|x l IH]; intros H; simpl; [reflexivity|].
  specialize (IH (fun i Hi => H i (or_intror Hi))).
  destruct (bucket_cases sd x (H x (or_introl eq_refl)))
    as [(H0 & H1 & H2)|[(H0 & H1 & H2)|(H0 & H1 & H2)]];
    rewrite H0, H1, H2; simpl; lia.
Qed.

(** The partition, for a master list without duplicates and without
    ["__proto__"] whose items all read as numbers. *)
Lemma report_partitions (masterList : list string) (scannedData : obj) :
  NoDup masterList ->
  ~ In "__proto__" masterList ->
  (forall item, In item masterList -> numericAt scannedData item) ->
  partitions masterList (report masterList scannedData).
Proof.
  intros Hnd Hp Hnum. unfold partitions, exactlyOneBucket, inShort.
  rewrite report_missing, report_matched, report_short_keys by assumption.
  split; [|split; [|split; [|split; [|split]]]].
  - intros item Hin. rewrite !filter_In.
    destruct (bucket_cases scannedData item (Hnum item Hin))
      as [(H0 & H1 & H2)|[(H0 & H1 & H2)|(H0 & H1 & H2)]];
      rewrite H0, H1, H2; intuition congruence.
  - intros item. rewrite !filter_In. tauto.
  - now apply NoDup_filter.
  - now apply NoDup_filter.
  - now apply NoDup_filter.
  - simpl. now apply three_filters_length.
Qed.

(* ================================================================== *)
(** ** Facts about [trim], [toUpperCase] and [split] *)

Section StringFacts.

Lemma trimStart_head (s : string) : headWhite (trimStart s) = false.
Proof.
  induction s as [|c r IH]; simpl; [reflexivity|].
  destruct (isWhite c) eqn:E; [assumption | simpl; assumption].
Qed.

Lemma trimStart_fixed (s : string) : headWhite s = false -> trimStart s = s.
Proof. destruct s as [|c r]; simpl; [reflexivity|]. now intros ->. Qed.

Lemma trimEnd_head (s : string) :
  headWhite s = false -> headWhite (trimEnd s) = false.
Proof.
  destruct s as [|c r]; simpl; [reflexivity|]. intros H.
  destruct (trimEnd r); [rewrite H|]; simpl; assumption.
Qed.

Lemma trimEnd_idem (s : string) : trimEnd (trimEnd s) = trimEnd s.
Proof.
  induction s as [|c r IH]; simpl; [reflexivity|].
  destruct (trimEnd r) as [|c' r'] eqn:E.
  - destruct (isWhite c) eqn:W; simpl; [reflexivity | now rewrite W].
  - change (trimEnd (String c (String c' r'))) with
      (match trimEnd (String c' r') with
       | EmptyString => if isWhite c then EmptyString else String c EmptyString
       | x => String c x
       end).
    now rewrite IH.
Qed.

Lemma trim_idem (s : string) : trim (trim s) = trim s.
Proof.
  unfold trim.
  rewrite (trimStart_fixed (trimEnd (trimStart s))).
  - apply trimEnd_idem.
  - apply trimEnd_head, trimStart_head.
Qed.

Lemma trimStart_blank (s : string) : isBlank s = true -> trimStart s = "".
Proof.
  induction s as [|c r IH]; simpl; [reflexivity|].
  intros H. apply andb_true_iff in H as [Hc Hr]. rewrite Hc. now apply IH.
Qed.

Lemma trim_blank (s : string) : isBlank s = true -> trim s = "".
Proof. intros H. unfold trim. now rewrite trimStart_blank. Qed.

Lemma truthy_false (s : string) : truthy s = false <-> s = "".
Proof. destruct s; simpl; split; congruence. Qed.

Lemma truthy_true (s : string) : truthy s = true <-> s <> "".
Proof. destruct s; simpl; split; congruence. Qed.

Lemma toUpperCase_empty (s : string) : toUpperCase s = "" -> s = "".
Proof. destruct s; simpl; congruence. Qed.

Lemma hasComma_trimStart (s : string) :
  hasComma s = false -> hasComma (trimStart s) = false.
Proof.
  induction s as [|c r IH]; simpl; [reflexivity|].
  intros H. apply orb_false_iff in H as [Hc Hr].
  destruct (isWhite c); [now apply IH | simpl; now rewrite Hc, Hr].
Qed.

Lemma hasComma_trimEnd (s : string) :
  hasComma s = false -> hasComma (trimEnd s) = false.
Proof.
  induction s as [|c r IH]; simpl; [reflexivity|].
  intros H. apply orb_false_iff in H as [Hc Hr]. specialize (IH Hr).
  destruct (trimEnd r) as [|c' r'].
  - destruct (isWhite c); simpl; [reflexivity | now rewrite Hc].
  - simpl in *. now rewrite Hc, IH.
Qed.

Lemma hasComma_trim (s : string) :
  hasComma s = false -> hasComma (trim s) = false.
Proof. intros H. now apply hasComma_trimEnd, hasComma_trimStart. Qed.

Lemma hasComma_append (a b : string) :
  hasComma (a ++ String TwoColumn.comma b)%string = true.
Proof.
  induction a as [|c r IH]; simpl; [reflexivity|].
  rewrite IH. apply orb_true_r.
Qed.

Lemma split_nonempty (s : string) : split TwoColumn.comma s <> [].
Proof.
  induction s as [|c r IH]; simpl; [discriminate|].
  destruct (Ascii.eqb c TwoColumn.comma); [discriminate|].
  destruct (split TwoColumn.comma r); discriminate.
Qed.

(** The first piece of a split holds no comma. *)
Lemma split_head_nocomma (s : string) :
  match split TwoColumn.comma s with
  | h :: _ => hasComma h = false
  | [] => False
  end.
Proof.
  induction s as [|c r IH]; simpl; [reflexivity|].
  destruct (Ascii.eqb c TwoColumn.comma) eqn:E; [reflexivity|].
  destruct (split TwoColumn.comma r) as [|h t]; [contradiction|].
  simpl. now rewrite E.
Qed.

Lemma split_prefix (p rest : string) :
  hasComma p = false ->
  split TwoColumn.comma (p ++ String TwoColumn.comma rest)%string
  = p :: split TwoColumn.comma rest.
Proof.
  induction p as [|c r IH]; simpl; [reflexivity|].
  intros H. apply orb_false_iff in H as [Hc Hr].
  rewrite Hc, (IH Hr). reflexivity.
Qed.


Lemma headWhite_trim (s : string) : headWhite (trim s) = false.
Proof. apply trimEnd_head, trimStart_head. Qed.

Lemma trim_keeps_head (c : ascii) (r : string) :
  isWhite c = false -> trim (String c r) <> "".
Proof.
  intros H. unfold trim. rewrite trimStart_fixed by exact H.
  simpl. destruct (trimEnd r); [rewrite H|]; discriminate.
Qed.

Lemma trim_nonempty_arg (s : string) : trim s <> "" -> s <> "".
Proof. intros H ->. now apply H. Qed.

Lemma isWhite_upperChar (c : ascii) : isWhite (upperChar c) = isWhite c.
Proof.
  destruct c as [[] [] [] [] [] [] [] []]; reflexivity.
Qed.

Lemma upperChar_idem (c : ascii) : upperChar (upperChar c) = upperChar c.
Proof.
  destruct c as [[] [] [] [] [] [] [] []]; reflexivity.
Qed.

Lemma toUpperCase_idem (s : string) :
  toUpperCase (toUpperCase s) = toUpperCase s.
Proof.
  induction s as [|c r IH]; simpl; [reflexivity|].
  now rewrite upperChar_idem, IH.
Qed.

Lemma trimStart_upper (s : string) :
  trimStart (toUpperCase s) = toUpperCase (trimStart s).
Proof.
  induction s as [|c r IH]; simpl; [reflexivity|].
  rewrite isWhite_upperChar. destruct (isWhite c); [assumption | reflexivity].
Qed.

Lemma trimEnd_upper (s : string) :
  trimEnd (toUpperCase s) = toUpperCase (trimEnd s).
Proof.
  induction s as [|c r IH]; simpl; [reflexivity|].
  rewrite IH, isWhite_upperChar.
  destruct (trimEnd r); simpl; [destruct (isWhite c)|]; reflexivity.
Qed.

Lemma trim_upper (s : string) : trim (toUpperCase s) = toUpperCase (trim s).
Proof. unfold trim. now rewrite trimStart_upper, trimEnd_upper. Qed.

Lemma upper_eqb_empty (s : string) :
  String.eqb "" (toUpperCase s) = negb (truthy s).
Proof. destruct s; reflexivity. Qed.

Lemma append_comma_inj (s t : string) :
  (s ++ ",")%string = (t ++ ",")%string -> s = t.
Proof.
  revert t. induction s as [|c s IH]; intros [|d t] H; simpl in H.
  - reflexivity.
  - exfalso. inversion H as [[Hc Ht]]. destruct t; discriminate.
  - exfalso. inversion H as [[Hc Hs]]. destruct s; discriminate.
  - inversion H as [[Hc Hs]]. f_equal. now apply IH.
Qed.

(** A name inherited from [Object.prototype] holds no comma and is not
    empty. *)
Lemma protoName_shape (k : string) :
  isProtoName k = true -> hasComma k = false /\ k <> "".
Proof.
  intros H. apply protoName_cases in H. simpl in H.
  repeat (destruct H as [<-|H]; [split; [reflexivity | discriminate]|]).
  contradiction.
Qed.

Lemma comma_not_protoName (k : string) :
  hasComma k = true -> isProtoName k = false.
Proof.
  intros H. destruct (isProtoName k) eqn:P; [|reflexivity].
  apply protoName_shape in P as [P _]. congruence.
Qed.

End StringFacts.


(* ================================================================== *)
(** ** Built catalogs *)

Lemma OneColumn_parse_NoDup (data : list (list string)) :
  NoDup (OneColumn.parseMasterList data).
Proof. apply NoDup_Set_of. Qed.

Lemma TwoColumn_parse_NoDup (data : list (list string)) :
  NoDup (TwoColumn.parseMasterList data).
Proof. apply NoDup_Set_of. Qed.

Lemma rowString_comma (row : list string) (s : string) :
  TwoColumn.rowString row = Some s -> hasComma s = true.
Proof.
  destruct row as [|f0 [|f1 rest]]; simpl; intros H; inversion H;
    apply hasComma_append.
Qed.

Lemma rowString_head (row : list string) (s : string) :
  TwoColumn.rowString row = Some s -> headWhite s = false.
Proof.
  assert (H : forall f0 rest,
             headWhite (trim f0 ++ String TwoColumn.comma rest)%string = false).
  { intros f0 rest. pose proof (headWhite_trim f0) as Hw.
    destruct (trim f0); [reflexivity | exact Hw]. }
  destruct row as [|f0 [|f1 rest]]; simpl; intros E; inversion E; apply H.
Qed.

Lemma In_unwrap (items : list (option string)) (s : string) :
  In s (TwoColumn.unwrap items) <-> In (Some s) items.
Proof.
  unfold TwoColumn.unwrap. rewrite in_flat_map. split.
  - intros [[x|] [Hin Hx]]; simpl in Hx; [|contradiction].
    destruct Hx as [->|[]]. assumption.
  - intros H. exists (Some s). split; [assumption | now left].
Qed.

(** Membership in a built catalog, row by row. *)
Lemma TwoColumn_parse_In (data : list (list string)) (item : string) :
  In item (TwoColumn.parseMasterList data) <->
  exists row, In row data /\ TwoColumn.rowString row = Some item /\
              TwoColumn.keepRow (Some item) = true.
Proof.
  unfold TwoColumn.parseMasterList.
  rewrite In_Set_of, In_unwrap, filter_In, in_map_iff. split.
  - intros [[row [Hr Hin]] Hk]. eauto.
  - intros [row (Hin & Hr & Hk)]. eauto.
Qed.

Lemma TwoColumn_parse_comma (data : list (list string)) (item : string) :
  In item (TwoColumn.parseMasterList data) -> hasComma item = true.
Proof.
  intros H. apply TwoColumn_parse_In in H as [row (_ & Hr & _)].
  now apply rowString_comma in Hr.
Qed.

Lemma TwoColumn_parse_nonempty (data : list (list string)) (item : string) :
  In item (TwoColumn.parseMasterList data) -> item <> "".
Proof.
  intros H E. apply TwoColumn_parse_comma in H. subst item. discriminate.
Qed.

Lemma instrumentOf_nocomma (item : string) :
  hasComma (TwoColumn.instrumentOf item) = false.
Proof.
  unfold TwoColumn.instrumentOf, at_.
  pose proof (split_head_nocomma item) as H.
  destruct (split TwoColumn.comma item) as [|h t]; [contradiction|].
  simpl. now apply hasComma_trim.
Qed.

(** A kept row string that does not start with white space has a
    non-empty instrument number. *)
Lemma kept_instrument_nonempty (s : string) :
  TwoColumn.keepRow (Some s) = true -> headWhite s = false ->
  TwoColumn.instrumentOf s <> "".
Proof.
  unfold TwoColumn.keepRow, TwoColumn.instrumentOf, at_.
  destruct s as [|c r]; [discriminate|]. simpl.
  destruct (Ascii.eqb c TwoColumn.comma); [discriminate|].
  intros _ Hc.
  destruct (split TwoColumn.comma r) as [|h t]; simpl;
    now apply trim_keeps_head.
Qed.

Lemma built_instrument_nonempty (data : list (list string)) (item : string) :
  In item (TwoColumn.parseMasterList data) ->
  TwoColumn.instrumentOf item <> "".
Proof.
  intros H. apply TwoColumn_parse_In in H as [row (_ & Hr & Hk)].
  apply kept_instrument_nonempty; [assumption|].
  now apply rowString_head in Hr.
Qed.

(* ================================================================== *)
(** ** How the two-column handlers reach the tally *)

(** Only the empty normalized text matches an empty row. *)
Lemma matches_empty_item (n : string) :
  TwoColumn.matchesItem n "" = String.eqb n "".
Proof. unfold TwoColumn.matchesItem. simpl. apply orb_false_r. Qed.

Lemma TwoColumn_processNumberIn_cases (rows : list string) (number : string)
    (st : TwoColumn.State) :
  (number = "" /\ TwoColumn.processNumberIn rows number st = (None, st)) \/
  (number <> "" /\
   (find_ (TwoColumn.matchesItem (toUpperCase (trim number))) rows = None \/
    find_ (TwoColumn.matchesItem (toUpperCase (trim number))) rows = Some "") /\
   TwoColumn.processNumberIn rows number st = (Some false, st)) \/
  (exists item,
      number <> "" /\
      find_ (TwoColumn.matchesItem (toUpperCase (trim number))) rows
      = Some item /\
      item <> "" /\
      TwoColumn.processNumberIn rows number st
      = (Some true, TwoColumn.tallied st (TwoColumn.instrumentOf item))).
Proof.
  unfold TwoColumn.processNumberIn.
  destruct (truthy number) eqn:T; simpl.
  - apply truthy_true in T.
    destruct (find_ _ _) as [item|] eqn:F.
    + destruct (truthy item) eqn:Ti.
      * right; right. exists item. apply truthy_true in Ti. auto.
      * apply truthy_false in Ti. subst item. right; left. auto.
    + right; left. auto.
  - apply truthy_false in T. left. auto.
Qed.

Lemma TwoColumn_processNumber_cases (number : string) (st : TwoColumn.State) :
  (number = "" /\ TwoColumn.processNumber number st = (None, st)) \/
  (number <> "" /\
   (find_ (TwoColumn.matchesItem (toUpperCase (trim number)))
      (TwoColumn.masterList st) = None \/
    find_ (TwoColumn.matchesItem (toUpperCase (trim number)))
      (TwoColumn.masterList st) = Some "") /\
   TwoColumn.processNumber number st = (Some false, st)) \/
  (exists item,
      number <> "" /\
      find_ (TwoColumn.matchesItem (toUpperCase (trim number)))
        (TwoColumn.masterList st) = Some item /\
      item <> "" /\
      TwoColumn.processNumber number st
      = (Some true, TwoColumn.tallied st (TwoColumn.instrumentOf item))).
Proof. apply TwoColumn_processNumberIn_cases. Qed.

(** A call of [processNumber], whatever master list it closes over,
    changes nothing but the tally. *)
Lemma TwoColumn_processNumberIn_frame (rows : list string) (number : string)
    (st : TwoColumn.State) :
  let st' := snd (TwoColumn.processNumberIn rows number st) in
  TwoColumn.masterList st' = TwoColumn.masterList st /\
  TwoColumn.manualNumber st' = TwoColumn.manualNumber st /\
  TwoColumn.isUsingCamera st' = TwoColumn.isUsingCamera st /\
  TwoColumn.cameraList st' = TwoColumn.cameraList st.
Proof.
  destruct (TwoColumn_processNumberIn_cases rows number st)
    as [[_ E]|[(_ & _ & E)|(item & _ & _ & _ & E)]]; rewrite E; simpl; auto.
Qed.

Lemma TwoColumn_processNumberIn_tally (rows : list string) (number : string)
    (st : TwoColumn.State) :
  rows = TwoColumn.masterList st \/ rows = TwoColumn.cameraList st ->
  TwoColumn_tallyStep st (snd (TwoColumn.processNumberIn rows number st)).
Proof.
  intros Hr. unfold TwoColumn_tallyStep.
  destruct (TwoColumn_processNumberIn_cases rows number st)
    as [[_ E]|[(_ & _ & E)|(item & _ & F & N & E)]]; rewrite E; simpl; auto.
  right. exists number, item, rows. auto.
Qed.

(** The state of a handler that calls [processNumber] and then keeps
    or clears the typed text. *)
Lemma TwoColumn_handleScan_state (ev : TwoColumn.KeyEvent)
    (st : TwoColumn.State) :
  fst (TwoColumn.handleScan ev st) = st \/
  fst (TwoColumn.handleScan ev st)
  = snd (TwoColumn.processNumber (trim (TwoColumn.value ev)) st).
Proof.
  unfold TwoColumn.handleScan. destruct (_ || _); [|now left].
  right. destruct (TwoColumn.processNumber _ st) as [r st'].
  destruct (TwoColumn.accepted r); reflexivity.
Qed.

Lemma TwoColumn_handleManualSubmit_state (st : TwoColumn.State) :
  let st1 := fst (TwoColumn.handleManualSubmit st) in
  let st2 := snd (TwoColumn.processNumber (TwoColumn.manualNumber st) st) in
  TwoColumn.masterList st1 = TwoColumn.masterList st2 /\
  TwoColumn.scannedData st1 = TwoColumn.scannedData st2 /\
  TwoColumn.isUsingCamera st1 = TwoColumn.isUsingCamera st2 /\
  TwoColumn.cameraList st1 = TwoColumn.cameraList st2.
Proof.
  unfold TwoColumn.handleManualSubmit.
  destruct (TwoColumn.processNumber _ st) as [r st'].
  destruct (TwoColumn.accepted r); simpl; auto.
Qed.

Lemma TwoColumn_step_tally (st : TwoColumn.State) (a : TwoColumn.Action) :
  TwoColumn_tallyStep st (TwoColumn.step st a).
Proof.
  destruct a as [data|data|ev|text| | |decoded]; simpl.
  - destruct (TwoColumn.uploadDisabled st); now left.
  - now left.
  - destruct (TwoColumn_handleScan_state ev st) as [E|E]; rewrite E;
      [now left|].
    apply TwoColumn_processNumberIn_tally. now left.
  - now left.
  - pose proof (TwoColumn_processNumberIn_tally (TwoColumn.masterList st)
                  (TwoColumn.manualNumber st) st (or_introl eq_refl)) as P.
    destruct (TwoColumn_handleManualSubmit_state st) as (_ & E & _).
    unfold TwoColumn_tallyStep in *. rewrite E. exact P.
  - now left.
  - destruct (TwoColumn.isUsingCamera st); [|now left].
    apply TwoColumn_processNumberIn_tally. now right.
Qed.

(** The master list and the camera's copy after a step. *)
Lemma TwoColumn_step_masterList (st : TwoColumn.State) (a : TwoColumn.Action) :
  TwoColumn_isLoad a = false ->
  TwoColumn.masterList (TwoColumn.step st a) = TwoColumn.masterList st.
Proof.
  destruct a as [data|data|ev|text| | |decoded]; simpl; intros H;
    try discriminate; try reflexivity.
  - destruct (TwoColumn_handleScan_state ev st) as [E|E]; rewrite E;
      [reflexivity|]. apply TwoColumn_processNumberIn_frame.
  - destruct (TwoColumn_handleManualSubmit_state st) as (E & _). rewrite E.
    apply TwoColumn_processNumberIn_frame.
  - destruct (TwoColumn.isUsingCamera st); [|reflexivity].
    apply TwoColumn_processNumberIn_frame.
Qed.

Lemma TwoColumn_step_cameraList (st : TwoColumn.State) (a : TwoColumn.Action) :
  TwoColumn.cameraList (TwoColumn.step st a) = TwoColumn.cameraList st \/
  (a = TwoColumn.ToggleCamera /\
   TwoColumn.cameraList (TwoColumn.step st a) = TwoColumn.masterList st).
Proof.
  destruct a as [data|data|ev|text| | |decoded]; simpl.
  - destruct (TwoColumn.uploadDisabled st); now left.
  - now left.
  - left. destruct (TwoColumn_handleScan_state ev st) as [E|E]; rewrite E;
      [reflexivity|]. apply TwoColumn_processNumberIn_frame.
  - now left.
  - left. destruct (TwoColumn_handleManualSubmit_state st) as (_ & _ & _ & E).
    rewrite E. apply TwoColumn_processNumberIn_frame.
  - destruct (TwoColumn.isUsingCamera st); [now left | now right].
  - left. destruct (TwoColumn.isUsingCamera st); [|reflexivity].
    apply TwoColumn_processNumberIn_frame.
Qed.

(* ================================================================== *)
(** ** Invariants of the reachable states *)

Lemma OneColumn_step_inv (st : OneColumn.State) (a : OneColumn.Action) :
  OneColumn_inv st -> OneColumn_inv (OneColumn.step st a).
Proof.
  intros [Hml Hwf]. destruct a as [data|ev]; simpl.
  - destruct (OneColumn.uploadDisabled st); [now split|].
    split; simpl; [now exists data | assumption].
  - unfold OneColumn.handleScan.
    destruct (_ || _); [|now split].
    destruct (truthy _); [|now split].
    split; simpl; [assumption | now apply wf_bump].
Qed.

Lemma OneColumn_run_inv (acts : list OneColumn.Action) :
  OneColumn_inv (OneColumn.run acts).
Proof.
  unfold OneColumn.run.
  assert (H : OneColumn_inv OneColumn.initial).
  { split; [now exists [] | constructor]. }
  revert H. generalize OneColumn.initial.
  induction acts as [|a acts IH]; intros st H; simpl; [assumption|].
  apply IH. now apply OneColumn_step_inv.
Qed.

Lemma OneColumn_run_tallyOK (acts : list OneColumn.Action) :
  tallyOK (OneColumn.scannedData (OneColumn.run acts)) = true.
Proof.
  unfold OneColumn.run.
  assert (H : tallyOK (OneColumn.scannedData OneColumn.initial) = true)
    by reflexivity.
  revert H. generalize OneColumn.initial.
  induction acts as [|a acts IH]; intros st H; simpl; [assumption|].
  apply IH. destruct a as [data|ev]; simpl.
  - destruct (OneColumn.uploadDisabled st); assumption.
  - unfold OneColumn.handleScan. destruct (_ || _); [|assumption].
    destruct (truthy (trim (OneColumn.value ev))) eqn:T; [|assumption].
    simpl. apply tallyOK_bump; [assumption | now apply truthy_true].
Qed.

Lemma TwoColumn_step_inv (st : TwoColumn.State) (a : TwoColumn.Action) :
  TwoColumn_inv st -> TwoColumn_inv (TwoColumn.step st a).
Proof.
  intros (Hm & Hc & Hwf). split; [|split].
  - destruct (TwoColumn_isLoad a) eqn:L.
    + destruct a as [data|data|ev|text| | |decoded]; try discriminate; simpl.
      * destruct (TwoColumn.uploadDisabled st); [assumption | now exists data].
      * now exists data.
    + now rewrite TwoColumn_step_masterList.
  - destruct (TwoColumn_step_cameraList st a) as [E|[_ E]]; rewrite E;
      assumption.
  - destruct (TwoColumn_step_tally st a) as [E|(n & i & rows & _ & _ & _ & E)];
      rewrite E; [assumption | now apply wf_bump].
Qed.

Lemma TwoColumn_run_inv (acts : list TwoColumn.Action) :
  TwoColumn_inv (TwoColumn.run acts).
Proof.
  unfold TwoColumn.run.
  assert (H : TwoColumn_inv TwoColumn.initial).
  { split; [now exists []|]. split; [now exists [] | constructor]. }
  revert H. generalize TwoColumn.initial.
  induction acts as [|a acts IH]; intros st H; simpl; [assumption|].
  apply IH. now apply TwoColumn_step_inv.
Qed.

(** Every key the two-column version tallies is the non-empty,
    comma-free instrument number of a built row. *)
Lemma TwoColumn_step_key (st : TwoColumn.State) (a : TwoColumn.Action) :
  TwoColumn_inv st ->
  TwoColumn.scannedData (TwoColumn.step st a) = TwoColumn.scannedData st \/
  exists k, k <> "" /\ hasComma k = false /\
            TwoColumn.scannedData (TwoColumn.step st a)
            = bump (TwoColumn.scannedData st) k.
Proof.
  intros ([dm Hm] & [dc Hc] & _).
  destruct (TwoColumn_step_tally st a)
    as [E|(n & item & rows & Hr & F & _ & E)]; [now left|].
  right. exists (TwoColumn.instrumentOf item).
  split; [|split; [apply instrumentOf_nocomma | exact E]].
  apply find_some in F as [Hin _].
  destruct Hr as [->| ->].
  - rewrite Hm in Hin. now apply (built_instrument_nonempty dm).
  - rewrite Hc in Hin. now apply (built_instrument_nonempty dc).
Qed.

Lemma TwoColumn_run_tally (acts : list TwoColumn.Action) :
  tallyOK (TwoColumn.scannedData (TwoColumn.run acts)) = true /\
  keysNoComma (TwoColumn.scannedData (TwoColumn.run acts)).
Proof.
  unfold TwoColumn.run.
  assert (H : TwoColumn_inv TwoColumn.initial /\
              tallyOK (TwoColumn.scannedData TwoColumn.initial) = true /\
              keysNoComma (TwoColumn.scannedData TwoColumn.initial)).
  { split; [|split; [reflexivity | intros k []]].
    split; [now exists []|]. split; [now exists [] | constructor]. }
  revert H. generalize TwoColumn.initial.
  induction acts as [|a acts IH]; intros st H; simpl; [tauto|].
  apply IH. destruct H as (Hi & Ht & Hk).
  split; [now apply TwoColumn_step_inv|].
  destruct (TwoColumn_step_key st a Hi) as [E|(k & Hne & Hc & E)];
    rewrite E; [now split|].
  split; [now apply tallyOK_bump|].
  intros k' Hin. apply In_keys_set in Hin as [->|Hin];
    [assumption | now apply Hk].
Qed.

Lemma TwoColumn_run_keysNoComma (acts : list TwoColumn.Action) :
  keysNoComma (TwoColumn.scannedData (TwoColumn.run acts)).
Proof. apply TwoColumn_run_tally. Qed.

(* ================================================================== *)
(** ** Properties of the report and of the handlers *)

(* ------------------------------------------------------------------ *)
(** *** Partition of the catalog *)

(** C1 (single-column version, the code at a concrete input).  With
    the catalog built from the rows ("constructor") and ("A") and no
    scan at all, [scannedData["constructor"] || 0] is the function
    inherited from [Object.prototype]: it is not [=== 0], not [=== 1]
    and not [> 1], so the item "constructor" is put in no bucket.
    missing holds "A" only, matched and short are empty, and the sizes
    add up to 1 while totalExpected is 2: the buckets do not partition
    the catalog.  After scanning "constructor" once the tally holds a
    string for it and the item is still in no bucket. *)
Theorem C1_one_column_prototype_name_in_no_bucket :
  let data := [["constructor"]; ["A"]] in
  let loaded := OneColumn.run [OneColumn.Upload data] in
  let scanned :=
    OneColumn.run [OneColumn.Upload data;
                   OneColumn.KeyDown {| OneColumn.key := "Enter";
                                        OneColumn.value := "constructor" |}] in
  let r := OneColumn.reportOf loaded in
  let r' := OneColumn.reportOf scanned in
  OneColumn.masterList loaded = ["constructor"; "A"] /\
  actualCount (OneColumn.scannedData loaded) "constructor" = Fn "constructor" /\
  missing r = ["A"] /\ matched r = [] /\ short r = [] /\
  totalExpected r = 2 /\
  ~ exactlyOneBucket r "constructor" /\
  ~ partitions (OneColumn.masterList loaded) r /\
  OneColumn.scannedData scanned
  = [("constructor", Str [FunctionText "constructor"; Digits 1])] /\
  missing r' = ["A"] /\ matched r' = [] /\ short r' = [] /\ excess r' = [].
Proof.
  cbv zeta.
  assert (E : ~ exactlyOneBucket
                (OneColumn.reportOf
                   (OneColumn.run
                      [OneColumn.Upload [["constructor"]; ["A"]]]))
                "constructor").
  { unfold exactlyOneBucket, inShort. vm_compute.
    intros [(H & _)|[(_ & H & _)|(_ & _ & H)]];
      repeat (destruct H as [H|H]; [discriminate|]); exact H. }
  repeat (split; [reflexivity|]).
  split; [exact E|].
  split; [|repeat split; reflexivity].
  intros (P & _). apply E. apply P. now left.
Qed.

(** X20. The partition where it holds.  In every reachable state of
    the two-column version, and in every reachable state of the
    single-column version whose master list holds no name of a property
    of [Object.prototype], the report's matched, short and missing
    buckets partition the master list: every item is in exactly one of
    them, they hold nothing else and no item twice, and
    missing.length + matched.length + (number of short keys) is
    totalExpected. *)
Theorem X20_report_partitions_catalog :
  (forall acts : list OneColumn.Action,
      let st := OneColumn.run acts in
      noProtoNames (OneColumn.masterList st) = true ->
      partitions (OneColumn.masterList st) (OneColumn.reportOf st)) /\
  (forall acts : list TwoColumn.Action,
      let st := TwoColumn.run acts in
      partitions (TwoColumn.masterList st) (TwoColumn.reportOf st)).
Proof.
  split; intros acts st.
  - intros Hp. destruct (OneColumn_run_inv acts) as [[data Hd] _].
    fold st in Hd.
    pose proof (OneColumn_run_tallyOK acts) as Ht. fold st in Ht.
    unfold noProtoNames in Hp. rewrite forallb_forall in Hp.
    apply report_partitions.
    + rewrite Hd. apply OneColumn_parse_NoDup.
    + intros Hin. apply Hp in Hin. discriminate.
    + intros item Hin. exists (countOf (OneColumn.scannedData st) item).
      apply actualCount_plain; [assumption|].
      apply negb_true_iff. now apply Hp.
  - destruct (TwoColumn_run_inv acts) as [[data Hd] _]. fold st in Hd.
    destruct (TwoColumn_run_tally acts) as [Ht _]. fold st in Ht.
    assert (Hc : forall item, In item (TwoColumn.masterList st) ->
                              isProtoName item = false).
    { intros item Hin. apply comma_not_protoName.
      rewrite Hd in Hin. now apply (TwoColumn_parse_comma data). }
    apply report_partitions.
    + rewrite Hd. apply TwoColumn_parse_NoDup.
    + intros Hin. apply Hc in Hin. discriminate.
    + intros item Hin. exists (countOf (TwoColumn.scannedData st) item).
      apply actualCount_plain; [assumption | now apply Hc].
Qed.

Lemma X20_report_partitions_catalog_witness :
  let acts := [OneColumn.Upload [["A"]; ["B"]; ["C"]];
               OneColumn.KeyDown {| OneColumn.key := "Enter";
                                    OneColumn.value := "A" |}] in
  noProtoNames (OneColumn.masterList (OneColumn.run acts)) = true /\
  partitions (OneColumn.masterList (OneColumn.run acts))
    (OneColumn.reportOf (OneColumn.run acts)).
Proof.
  split; [reflexivity|].
  exact (proj1 X20_report_partitions_catalog
           [OneColumn.Upload [["A"]; ["B"]; ["C"]];
            OneColumn.KeyDown {| OneColumn.key := "Enter";
                                 OneColumn.value := "A" |}]
           eq_refl).
Defined.

(* ------------------------------------------------------------------ *)
(** *** Totals *)

(** C6 (the code at concrete inputs).  Single-column version: after
    the catalog ("A") is loaded and "A" and "constructor" are scanned
    once each, two scans were recorded, but the tally holds the number
    1 for "A" and a string for "constructor" (the text of the inherited
    function followed by "1"), and totalScanned is the string made of
    "1", that text and "1", not the number 2.  Two-column version: with
    the catalog row ("toString","SN-1"), one accepted scan of "sn-1"
    is tallied as a string under "toString" and totalScanned is a
    string, not the number 1.  totalExpected is the catalog length in
    both. *)
Theorem C6_prototype_name_turns_total_into_text :
  let acts1 :=
    [OneColumn.Upload [["A"]];
     OneColumn.KeyDown {| OneColumn.key := "Enter"; OneColumn.value := "A" |};
     OneColumn.KeyDown {| OneColumn.key := "Enter";
                          OneColumn.value := "constructor" |}] in
  let st1 := OneColumn.run acts1 in
  let acts2 :=
    [TwoColumn.Upload [["toString"; "SN-1"]];
     TwoColumn.KeyDown {| TwoColumn.key := "Enter";
                          TwoColumn.value := "sn-1" |}] in
  let st2 := TwoColumn.run acts2 in
  List.length (filter OneColumn_recorded acts1) = 2 /\
  OneColumn.scannedData st1
  = [("A", Num 1);
     ("constructor", Str [FunctionText "constructor"; Digits 1])] /\
  totalScanned (OneColumn.reportOf st1)
  = Str [Digits 1; FunctionText "constructor"; Digits 1] /\
  totalScanned (OneColumn.reportOf st1) <> Num 2 /\
  totalExpected (OneColumn.reportOf st1) = 1 /\
  TwoColumn_succeededCount acts2 TwoColumn.initial = 1 /\
  TwoColumn.scannedData st2
  = [("toString", Str [FunctionText "toString"; Digits 1])] /\
  totalScanned (TwoColumn.reportOf st2)
  = Str [Digits 0; FunctionText "toString"; Digits 1] /\
  totalScanned (TwoColumn.reportOf st2) <> Num 1 /\
  totalExpected (TwoColumn.reportOf st2) = 1.
Proof.
  cbv zeta. vm_compute.
  repeat split; try reflexivity; discriminate.
Qed.

Lemma numeric_entries (o : obj) :
  forallb (fun kv => isNum (snd kv)) o = true ->
  forall k v, In (k, v) o -> read o k <> None -> exists n, v = Num n.
Proof.
  intros H k v Hin _. rewrite forallb_forall in H.
  specialize (H (k, v) Hin). simpl in H.
  destruct v as [n|ps]; [now exists n | discriminate].
Qed.

Lemma wf_get_entry (o : obj) :
  wf o -> forall kv, In kv o -> get o (fst kv) = Some (snd kv).
Proof.
  unfold wf. induction o as [|[k v] r IH]; simpl; [tauto|].
  intros Hnd [k' v'] [Heq|Hin]; simpl.
  - inversion Heq; subst. now rewrite String.eqb_refl.
  - inversion Hnd as [|? ? Hk Hr]; subst.
    destruct (String.eqb_spec k k') as [->|Hne].
    + exfalso. apply Hk. change k' with (fst (k', v')). now apply in_map.
    + now apply (IH Hr (k', v')).
Qed.

Lemma sum_split_by_membership (masterList : list string) (sd l : obj) :
  (forall kv, In kv l -> get sd (fst kv) = Some (snd kv)) ->
  list_sum (map numOf (Object_values l))
  = list_sum (map (fun kv => numOf (snd kv))
                (filter (fun kv => includes masterList (fst kv)) l))
    + list_sum (map entryCount
        (map (excessEntry sd)
           (filter (fun k => negb (includes masterList k)) (Object_keys l)))).
Proof.
  unfold Object_values, Object_keys.
  induction l as [|[k v] l IH]; intros H; simpl; [reflexivity|].
  rewrite IH by (intros kv Hkv; apply H; now right).
  pose proof (H (k, v) (or_introl eq_refl)) as Hk. simpl in Hk.
  destruct (includes masterList k); simpl; [lia|].
  assert (E : entryCount (excessEntry sd k) = numOf v)
    by (unfold entryCount, excessEntry, read; cbn [count]; now rewrite Hk).
  rewrite E. lia.
Qed.

Lemma totalScanned_split (masterList : list string) (scannedData : obj) :
  wf scannedData ->
  forallb (fun kv => isNum (snd kv)) scannedData = true ->
  totalScanned (report masterList scannedData)
  = Num (resolvedSum masterList scannedData
         + excessSum (report masterList scannedData)).
Proof.
  intros Hwf Hn. rewrite report_totalScanned_num by assumption.
  unfold resolvedSum, excessSum. rewrite report_excess. f_equal.
  apply sum_split_by_membership. now apply wf_get_entry.
Qed.

(** X21. The totals where they are numbers.  In every reachable state
    of either version whose tally has no name of a property of
    [Object.prototype] among its keys, every tally value is a number,
    totalScanned is the sum of all tally counts, and that sum is the
    sum of the counts of the resolved entries (keys that are master
    list items) plus the sum of the counts in the excess bucket;
    totalExpected is always the length of the master list. *)
Theorem X21_report_totals :
  (forall acts : list OneColumn.Action,
      let st := OneColumn.run acts in
      let r := OneColumn.reportOf st in
      totalExpected r = List.length (OneColumn.masterList st) /\
      (noProtoNames (Object_keys (OneColumn.scannedData st)) = true ->
       totalScanned r
       = Num (list_sum (map numOf (Object_values (OneColumn.scannedData st)))) /\
       totalScanned r
       = Num (resolvedSum (OneColumn.masterList st) (OneColumn.scannedData st)
              + excessSum r))) /\
  (forall acts : list TwoColumn.Action,
      let st := TwoColumn.run acts in
      let r := TwoColumn.reportOf st in
      totalExpected r = List.length (TwoColumn.masterList st) /\
      (noProtoNames (Object_keys (TwoColumn.scannedData st)) = true ->
       totalScanned r
       = Num (list_sum (map numOf (Object_values (TwoColumn.scannedData st)))) /\
       totalScanned r
       = Num (resolvedSum (TwoColumn.masterList st) (TwoColumn.scannedData st)
              + excessSum r))).
Proof.
  split; intros acts st r; (split; [reflexivity|]); intros Hp.
  - destruct (OneColumn_run_inv acts) as [_ Hwf]. fold st in Hwf.
    pose proof (tallyOK_allNum _ (OneColumn_run_tallyOK acts) Hp) as Hn.
    subst r. unfold OneColumn.reportOf. split.
    + now apply report_totalScanned_num.
    + now apply totalScanned_split.
  - destruct (TwoColumn_run_inv acts) as (_ & _ & Hwf). fold st in Hwf.
    pose proof (tallyOK_allNum _ (proj1 (TwoColumn_run_tally acts)) Hp) as Hn.
    subst r. unfold TwoColumn.reportOf. split.
    + now apply report_totalScanned_num.
    + now apply totalScanned_split.
Qed.

Lemma X21_report_totals_witness :
  let acts := [OneColumn.Upload [["A"]; ["B"]];
               OneColumn.KeyDown {| OneColumn.key := "Enter";
                                    OneColumn.value := "A" |};
               OneColumn.KeyDown {| OneColumn.key := "Tab";
                                    OneColumn.value := "X" |}] in
  noProtoNames (Object_keys (OneColumn.scannedData (OneColumn.run acts)))
  = true /\
  totalScanned (OneColumn.reportOf (OneColumn.run acts)) = Num 2.
Proof.
  split; [reflexivity|].
  exact (proj1 (proj2 (proj1 X21_report_totals
           [OneColumn.Upload [["A"]; ["B"]];
            OneColumn.KeyDown {| OneColumn.key := "Enter";
                                 OneColumn.value := "A" |};
            OneColumn.KeyDown {| OneColumn.key := "Tab";
                                 OneColumn.value := "X" |}]) eq_refl)).
Defined.

(* ------------------------------------------------------------------ *)
(** *** Monotone tally *)

Lemma vle_refl (v : stored) : vle v v.
Proof.
  destruct v as [n|p]; [now constructor|].
  rewrite <- (app_nil_r p) at 2. constructor.
Qed.

Lemma vle_trans (a b c : stored) : vle a b -> vle b c -> vle a c.
Proof.
  intros Hab Hbc. destruct Hab as [n m Hnm|p q|m].
  - inversion Hbc; subst. constructor. lia.
  - remember (Str (p ++ q)) as b eqn:Eb.
    destruct Hbc as [n m Hnm|p' q'|m]; try discriminate.
    + inversion Eb; subst. rewrite <- app_assoc. constructor.
    + inversion Eb as [E]. symmetry in E.
      apply app_eq_nil in E as [-> _]. constructor.
  - inversion Hbc; subst. constructor.
Qed.

Lemma grows_refl (o : obj) : grows o o.
Proof. intros k v H. exists v. split; [assumption | apply vle_refl]. Qed.

Lemma grows_trans (a b c : obj) : grows a b -> grows b c -> grows a c.
Proof.
  intros Hab Hbc k v H. destruct (Hab k v H) as [w [Hw Hle]].
  destruct (Hbc k w Hw) as [x [Hx Hle']]. exists x.
  split; [assumption | eapply vle_trans; eassumption].
Qed.

Lemma grows_bump (o : obj) (k : string) : grows o (bump o k).
Proof.
  intros k' v H. destruct (string_dec k k') as [->|Hne].
  - rewrite get_bump_same. unfold read. rewrite H.
    eexists. split; [reflexivity|].
    destruct v as [[|n]|[|p ps]]; simpl.
    + constructor. lia.
    + constructor. lia.
    + constructor.
    + change (Str (p :: ps ++ [Digits 1]))
        with (Str ((p :: ps) ++ [Digits 1])). constructor.
  - rewrite get_bump_other by assumption. exists v.
    split; [assumption | apply vle_refl].
Qed.

Lemma OneColumn_step_grows (st : OneColumn.State) (a : OneColumn.Action) :
  grows (OneColumn.scannedData st) (OneColumn.scannedData (OneColumn.step st a)).
Proof.
  destruct a as [data|ev]; simpl.
  - destruct (OneColumn.uploadDisabled st); apply grows_refl.
  - unfold OneColumn.handleScan.
    destruct (_ || _); [|apply grows_refl].
    destruct (truthy _); [apply grows_bump | apply grows_refl].
Qed.

Lemma TwoColumn_step_grows (st : TwoColumn.State) (a : TwoColumn.Action) :
  grows (TwoColumn.scannedData st) (TwoColumn.scannedData (TwoColumn.step st a)).
Proof.
  destruct (TwoColumn_step_tally st a) as [E|(n & i & rows & _ & _ & _ & E)];
    rewrite E; [apply grows_refl | apply grows_bump].
Qed.

Lemma OneColumn_fold_grows (acts : list OneColumn.Action)
    (st : OneColumn.State) :
  grows (OneColumn.scannedData st)
        (OneColumn.scannedData (fold_left OneColumn.step acts st)).
Proof.
  revert st. induction acts as [|a acts IH]; intros st; simpl.
  - apply grows_refl.
  - eapply grows_trans; [apply OneColumn_step_grows | apply IH].
Qed.

Lemma TwoColumn_fold_grows (acts : list TwoColumn.Action)
    (st : TwoColumn.State) :
  grows (TwoColumn.scannedData st)
        (TwoColumn.scannedData (fold_left TwoColumn.step acts st)).
Proof.
  revert st. induction acts as [|a acts IH]; intros st; simpl.
  - apply grows_refl.
  - eapply grows_trans; [apply TwoColumn_step_grows | apply IH].
Qed.

(** C8. Within a session the tally only grows: after any action, and
    after any sequence of actions, every key that was in the tally is
    still there with a count greater than or equal to its count before;
    and an action that is not a scan leaves the tally as it was, so
    only record changes it. *)
Theorem C8_tally_monotone :
  (forall acts st,
      grows (OneColumn.scannedData st)
            (OneColumn.scannedData (fold_left OneColumn.step acts st))) /\
  (forall acts st,
      grows (TwoColumn.scannedData st)
            (TwoColumn.scannedData (fold_left TwoColumn.step acts st))) /\
  (forall st a,
      OneColumn_isScan a = false ->
      OneColumn.scannedData (OneColumn.step st a) = OneColumn.scannedData st) /\
  (forall st a,
      TwoColumn_isScan a = false ->
      TwoColumn.scannedData (TwoColumn.step st a) = TwoColumn.scannedData st).
Proof.
  split; [|split; [|split]].
  - exact OneColumn_fold_grows.
  - exact TwoColumn_fold_grows.
  - intros st [data|ev] H; simpl in *; [|discriminate].
    destruct (OneColumn.uploadDisabled st); reflexivity.
  - intros st [data|data|ev|text| | |decoded] H; simpl in *;
      try discriminate; try reflexivity.
    destruct (TwoColumn.uploadDisabled st); reflexivity.
Qed.

Lemma C8_tally_monotone_witness :
  let st := TwoColumn.run [TwoColumn.Upload [["INST-1"; "SN-99"]];
                           TwoColumn.ToggleCamera;
                           TwoColumn.CameraScan "sn-99"] in
  TwoColumn.scannedData (TwoColumn.step st (TwoColumn.Drop [["X"]]))
  = [("INST-1", Num 1)] /\
  OneColumn.scannedData
    (OneColumn.step OneColumn.initial (OneColumn.Upload [["A"]])) = [].
Proof.
  split.
  - exact (proj2 (proj2 (proj2 C8_tally_monotone))
             (TwoColumn.run [TwoColumn.Upload [["INST-1"; "SN-99"]];
                             TwoColumn.ToggleCamera;
                             TwoColumn.CameraScan "sn-99"])
             (TwoColumn.Drop [["X"]]) eq_refl).
  - exact (proj1 (proj2 (proj2 C8_tally_monotone))
             OneColumn.initial (OneColumn.Upload [["A"]]) eq_refl).
Defined.

(* ------------------------------------------------------------------ *)
(** *** Frame: what record and report leave alone *)

Lemma visitItem_fold (l : list string) (m : Frame) :
  let m' := fold_left visitItem l m in
  let b := fold_left (classify (f_scannedData m)) l
             {| b_missing := f_missing m; b_short := f_short m;
                b_matched := f_matched m |} in
  f_masterList m' = f_masterList m /\ f_scannedData m' = f_scannedData m /\
  f_excess m' = f_excess m /\
  f_missing m' = b_missing b /\ f_short m' = b_short b /\
  f_matched m' = b_matched b.
Proof.
  revert m. induction l as [|x l IH]; intros m; simpl; [tauto|].
  destruct (IH (visitItem m x)) as (H1 & H2 & H3 & H4 & H5 & H6).
  rewrite H1, H2, H3, H4, H5, H6. clear.
  unfold visitItem, classify.
  destruct (strictEq (orZero (read (f_scannedData m) x)) 0); simpl; [tauto|].
  destruct (strictEq (orZero (read (f_scannedData m) x)) 1); simpl; [tauto|].
  destruct (greater (orZero (read (f_scannedData m) x)) 1); simpl; tauto.
Qed.

Lemma visitKey_fold (l : list string) (m : Frame) :
  let m' := fold_left visitKey l m in
  f_masterList m' = f_masterList m /\ f_scannedData m' = f_scannedData m /\
  f_missing m' = f_missing m /\ f_short m' = f_short m /\
  f_matched m' = f_matched m /\
  f_excess m'
  = fold_left (collectExcess (f_masterList m) (f_scannedData m)) l
      (f_excess m).
Proof.
  revert m. induction l as [|x l IH]; intros m; simpl; [tauto|].
  destruct (IH (visitKey m x)) as (H1 & H2 & H3 & H4 & H5 & H6).
  rewrite H1, H2, H3, H4, H5, H6. clear.
  unfold visitKey, collectExcess.
  destruct (negb (includes (f_masterList m) x)); simpl; tauto.
Qed.

Lemma reportFrame_spec (masterList : list string) (scannedData : obj) :
  let m := reportFrame masterList scannedData in
  let r := report masterList scannedData in
  f_masterList m = masterList /\ f_scannedData m = scannedData /\
  f_missing m = missing r /\ f_excess m = excess r /\
  f_short m = short r /\ f_matched m = matched r.
Proof.
  unfold reportFrame. simpl.
  set (m0 := {| f_masterList := masterList; f_scannedData := scannedData;
                f_missing := []; f_excess := []; f_short := [];
                f_matched := [] |}).
  destruct (visitItem_fold masterList m0) as (A1 & A2 & A3 & A4 & A5 & A6).
  destruct (visitKey_fold (Object_keys (f_scannedData (fold_left visitItem masterList m0)))
              (fold_left visitItem masterList m0))
    as (B1 & B2 & B3 & B4 & B5 & B6).
  rewrite B1, B2, B3, B4, B5, B6, A1, A2, A3, A4, A5, A6. simpl.
  repeat split; reflexivity.
Qed.

(** C9. Recording never changes the master list: [handleScan] of the
    single-column version and [processNumber] (and every handler that
    calls it) of the two-column version return a state with the same
    catalog, [processNumber] changing nothing but the tally; and
    running the report over the memory holding the catalog and the
    tally writes only its own accumulators, leaving both as they were. *)
Theorem C9_catalog_untouched :
  (forall ev st,
      OneColumn.masterList (fst (OneColumn.handleScan ev st))
      = OneColumn.masterList st) /\
  (forall number st,
      let st' := snd (TwoColumn.processNumber number st) in
      TwoColumn.masterList st' = TwoColumn.masterList st /\
      TwoColumn.manualNumber st' = TwoColumn.manualNumber st) /\
  (forall ev st,
      TwoColumn.masterList (fst (TwoColumn.handleScan ev st))
      = TwoColumn.masterList st) /\
  (forall st,
      TwoColumn.masterList (fst (TwoColumn.handleManualSubmit st))
      = TwoColumn.masterList st) /\
  (forall decodedText st,
      TwoColumn.masterList (TwoColumn.onScanSuccess decodedText st)
      = TwoColumn.masterList st) /\
  (forall masterList scannedData,
      f_masterList (reportFrame masterList scannedData) = masterList /\
      f_scannedData (reportFrame masterList scannedData) = scannedData).
Proof.
  assert (P : forall rows number st,
             TwoColumn.masterList
               (snd (TwoColumn.processNumberIn rows number st))
             = TwoColumn.masterList st /\
             TwoColumn.manualNumber
               (snd (TwoColumn.processNumberIn rows number st))
             = TwoColumn.manualNumber st).
  { intros rows number st. unfold TwoColumn.processNumberIn.
    destruct (negb (truthy number)); [now split|].
    destruct (find_ _ _) as [m|]; [|now split].
    destruct (truthy m); now split. }
  split; [|split; [|split; [|split; [|split]]]].
  - intros ev st. unfold OneColumn.handleScan.
    destruct (_ || _); [|reflexivity].
    destruct (truthy _); reflexivity.
  - intros number st. apply P.
  - intros ev st. unfold TwoColumn.handleScan.
    destruct (_ || _); [|reflexivity].
    pose proof (proj1 (P (TwoColumn.masterList st)
                         (trim (TwoColumn.value ev)) st)) as Hp.
    fold (TwoColumn.processNumber (trim (TwoColumn.value ev)) st) in Hp.
    destruct (TwoColumn.processNumber _ st) as [r st'].
    destruct (TwoColumn.accepted r); exact Hp.
  - intros st. unfold TwoColumn.handleManualSubmit.
    pose proof (proj1 (P (TwoColumn.masterList st)
                         (TwoColumn.manualNumber st) st)) as Hp.
    fold (TwoColumn.processNumber (TwoColumn.manualNumber st) st) in Hp.
    destruct (TwoColumn.processNumber _ st) as [r st'].
    destruct (TwoColumn.accepted r); exact Hp.
  - intros decodedText st. apply P.
  - intros masterList scannedData.
    split; apply (reportFrame_spec masterList scannedData).
Qed.

(* ------------------------------------------------------------------ *)
(** *** Two-column version: what the report reads *)

(** The report looks the tally up under the whole row string, while the
    tally is keyed by the instrument number alone: no catalog row is
    ever counted. *)
Lemma TwoColumn_count_always_zero (acts : list TwoColumn.Action) (item : string) :
  let st := TwoColumn.run acts in
  In item (TwoColumn.masterList st) ->
  actualCount (TwoColumn.scannedData st) item = Val (Num 0).
Proof.
  intros st Hin.
  destruct (TwoColumn_run_inv acts) as [[data Hd] _]. fold st in Hd.
  rewrite Hd in Hin. apply TwoColumn_parse_comma in Hin.
  unfold actualCount, read.
  destruct (get (TwoColumn.scannedData st) item) as [n|] eqn:G.
  - exfalso. apply get_Some_keys in G.
    apply (TwoColumn_run_keysNoComma acts) in G. congruence.
  - now rewrite (inherited_plain item (comma_not_protoName item Hin)).
Qed.

Lemma filter_all {A} (p : A -> bool) (l : list A) :
  (forall x, In x l -> p x = true) -> filter p l = l.
Proof.
  induction l as [|x l IH]; simpl; intros H; [reflexivity|].
  rewrite (H x (or_introl eq_refl)), IH; [reflexivity|].
  intros y Hy. apply H. now right.
Qed.

Lemma filter_none {A} (p : A -> bool) (l : list A) :
  (forall x, In x l -> p x = false) -> filter p l = [].
Proof.
  induction l as [|x l IH]; simpl; intros H; [reflexivity|].
  rewrite (H x (or_introl eq_refl)). apply IH.
  intros y Hy. apply H. now right.
Qed.

Lemma TwoColumn_allMissing (acts : list TwoColumn.Action) :
  let st := TwoColumn.run acts in
  let r := TwoColumn.reportOf st in
  missing r = TwoColumn.masterList st /\ matched r = [] /\ short r = [] /\
  map number (excess r) = Object_keys (TwoColumn.scannedData st).
Proof.
  intros st r. subst r. unfold TwoColumn.reportOf.
  pose proof (TwoColumn_count_always_zero acts) as Z. fold st in Z. simpl in Z.
  rewrite report_missing, report_matched, report_short, report_excess.
  repeat split.
  - apply filter_all. intros x Hx. unfold isMissing. now rewrite Z.
  - apply filter_none. intros x Hx. unfold isMatched. now rewrite Z.
  - rewrite filter_none; [reflexivity|].
    intros x Hx. unfold isShort. now rewrite Z.
  - rewrite map_map. simpl. rewrite map_id. apply filter_all.
    intros k Hk. apply negb_true_iff, includes_false. intros Hin.
    apply (TwoColumn_run_keysNoComma acts) in Hk.
    destruct (TwoColumn_run_inv acts) as [[data Hd] _]. fold st in Hd.
    rewrite Hd in Hin. apply TwoColumn_parse_comma in Hin. congruence.
Qed.

(** X7. Two-column version: in every reachable state the report lists
    every catalog row under missing, lists nothing under matched or
    short, and lists every tally key under excess, however many scans
    were accepted: tally keys are instrument numbers and never contain
    a comma, while the report looks counts up under whole row strings,
    which always contain one. *)
Lemma TwoColumn_report_all_missing (acts : list TwoColumn.Action) :
  let st := TwoColumn.run acts in
  let r := TwoColumn.reportOf st in
  missing r = TwoColumn.masterList st /\ matched r = [] /\ short r = [] /\
  map number (excess r) = Object_keys (TwoColumn.scannedData st).
Proof. exact (TwoColumn_allMissing acts). Qed.

(* ------------------------------------------------------------------ *)
(** *** Classification after one and two scans *)

(** C3 (two-column version, the code at a concrete input).  With the
    catalog built from the row ("INST-1","SN-99"), scanning "INST-1"
    is accepted and tallied under "INST-1", yet the report still lists
    the item under missing and not under matched, and shows the scan
    under excess; after a second scan the item is still missing, short
    is empty, and excess shows "INST-1" with count 2.  The report looks
    the tally up under the whole row string "INST-1,SN-99". *)
Theorem C3_two_column_scanned_item_stays_missing :
  let loaded := TwoColumn.run [TwoColumn.Upload c3_catalog] in
  let once := TwoColumn.run [TwoColumn.Upload c3_catalog; c3_scan] in
  let twice := TwoColumn.run [TwoColumn.Upload c3_catalog; c3_scan; c3_scan] in
  fst (TwoColumn.processNumber "INST-1" loaded) = Some true /\
  TwoColumn.scannedData once = [("INST-1", Num 1)] /\
  matched (TwoColumn.reportOf once) = [] /\
  missing (TwoColumn.reportOf once) = ["INST-1,SN-99"] /\
  excess (TwoColumn.reportOf once)
  = [{| number := "INST-1"; count := Some (Val (Num 1)) |}] /\
  TwoColumn.scannedData twice = [("INST-1", Num 2)] /\
  short (TwoColumn.reportOf twice) = [] /\
  missing (TwoColumn.reportOf twice) = ["INST-1,SN-99"] /\
  excess (TwoColumn.reportOf twice)
  = [{| number := "INST-1"; count := Some (Val (Num 2)) |}].
Proof. vm_compute. repeat split; reflexivity. Qed.

(* ------------------------------------------------------------------ *)
(** *** Empty and blank input *)

(** X8. The paths on which a blank input changes nothing: the keyboard
    handler of the single-column version, the keyboard handler of the
    two-column version (it trims before calling [processNumber]), and
    [processNumber] on the empty string. *)
Lemma blank_input_noop_paths (text : string) :
  isBlank text = true ->
  (forall k st,
      fst (OneColumn.handleScan {| OneColumn.key := k; OneColumn.value := text |} st)
      = st) /\
  (forall k st,
      fst (TwoColumn.handleScan {| TwoColumn.key := k; TwoColumn.value := text |} st)
      = st) /\
  (forall st, TwoColumn.processNumber "" st = (None, st)).
Proof.
  intros Hb. pose proof (trim_blank text Hb) as Ht.
  split; [|split]; intros; [| |reflexivity].
  - unfold OneColumn.handleScan. simpl. rewrite Ht. simpl.
    destruct (_ || _); reflexivity.
  - unfold TwoColumn.handleScan. simpl. rewrite Ht. simpl.
    destruct (_ || _); reflexivity.
Qed.

Lemma blank_input_noop_paths_witness :
  isBlank "  " = true /\
  fst (TwoColumn.handleScan
         {| TwoColumn.key := "Enter"; TwoColumn.value := "  " |}
         (TwoColumn.run [TwoColumn.Upload c5_catalog]))
  = TwoColumn.run [TwoColumn.Upload c5_catalog].
Proof.
  split; [reflexivity|].
  exact (proj1 (proj2 (blank_input_noop_paths "  " eq_refl)) "Enter"
           (TwoColumn.run [TwoColumn.Upload c5_catalog])).
Defined.

(** C5 (two-column version, the code at a concrete input).  With the
    catalog built from the one-field row ("INST-1"), the manual entry
    " " (one space) passes the [!number] guard, is normalized to the
    empty string, equals the empty serial number of the row "INST-1,",
    and is tallied: [processNumber] returns true and the count of
    "INST-1" goes from nothing to 1.  The same holds for a camera
    scan, with the camera switched on after the catalog was loaded. *)
Theorem C5_two_column_blank_manual_entry_is_tallied :
  let loaded := TwoColumn.run [TwoColumn.Upload c5_catalog] in
  let typed := TwoColumn.run [TwoColumn.Upload c5_catalog;
                              TwoColumn.ManualChange " "] in
  let filming := TwoColumn.run [TwoColumn.Upload c5_catalog;
                                TwoColumn.ToggleCamera] in
  isBlank " " = true /\
  TwoColumn.masterList loaded = ["INST-1,"] /\
  TwoColumn.scannedData loaded = [] /\
  fst (TwoColumn.processNumber " " loaded) = Some true /\
  TwoColumn.scannedData (snd (TwoColumn.processNumber " " loaded))
  = [("INST-1", Num 1)] /\
  TwoColumn.handleManualSubmit typed
  = ({| TwoColumn.masterList := ["INST-1,"];
        TwoColumn.scannedData := [("INST-1", Num 1)];
        TwoColumn.manualNumber := "";
        TwoColumn.isUsingCamera := false;
        TwoColumn.cameraList := [] |}, TwoColumn.Cleared) /\
  TwoColumn.scannedData (TwoColumn.onScanSuccess " " filming)
  = [("INST-1", Num 1)] /\
  TwoColumn.scannedData
    (TwoColumn.step filming (TwoColumn.CameraScan " "))
  = [("INST-1", Num 1)].
Proof. vm_compute. repeat split; reflexivity. Qed.

(* ------------------------------------------------------------------ *)
(** *** Rejected scans in the two-column version *)





(** A row is matched by its own instrument number. *)
Lemma matches_own_instrument (item : string) :
  TwoColumn.matchesItem
    (toUpperCase (trim (TwoColumn.instrumentOf item))) item = true.
Proof.
  unfold TwoColumn.matchesItem, TwoColumn.instrumentOf, at_.
  pose proof (split_nonempty item) as Hne.
  destruct (split TwoColumn.comma item) as [|h t]; [congruence|].
  simpl. now rewrite trim_idem, String.eqb_refl.
Qed.






(* ------------------------------------------------------------------ *)
(** *** Scans that resolve to no catalog entry *)




(* ------------------------------------------------------------------ *)
(** *** Either identifier of a row *)








(* ------------------------------------------------------------------ *)
(** *** Catalog build *)

Lemma keepRow_commafree (p s : string) :
  hasComma p = false ->
  TwoColumn.keepRow (Some (p ++ String TwoColumn.comma s)%string) = truthy p.
Proof.
  intros H. unfold TwoColumn.keepRow. rewrite split_prefix by assumption.
  simpl. destruct p; reflexivity.
Qed.

Lemma TwoColumn_rows_as_spec (data : list (list string)) :
  (forall f0 rest, In (f0 :: rest) data -> hasComma (trim f0) = false) ->
  TwoColumn.unwrap (filter TwoColumn.keepRow (map TwoColumn.rowString data))
  = map specRender (filter specKeep (flat_map specRow data)).
Proof.
  induction data as [|row data IH]; intros H; [reflexivity|].
  assert (IH' := IH (fun f0 rest Hin => H f0 rest (or_intror Hin))).
  clear IH. cbn [map flat_map]. rewrite filter_app, map_app, <- IH'.
  destruct row as [|f0 [|f1 rest]].
  - reflexivity.
  - pose proof (H f0 [] (or_introl eq_refl)) as Hc.
    cbn [TwoColumn.rowString filter specRow].
    change (trim f0 ++ ",")%string with (trim f0 ++ String TwoColumn.comma "")%string.
    rewrite keepRow_commafree by assumption.
    unfold specKeep. cbn [primaryId].
    destruct (truthy (trim f0)); reflexivity.
  - pose proof (H f0 (f1 :: rest) (or_introl eq_refl)) as Hc.
    cbn [TwoColumn.rowString filter specRow].
    change (trim f0 ++ "," ++ trim f1)%string
      with (trim f0 ++ String TwoColumn.comma (trim f1))%string.
    rewrite keepRow_commafree by assumption.
    unfold specKeep. cbn [primaryId].
    destruct (truthy (trim f0)); reflexivity.
Qed.

(** C7, counterexample.  Single-column version: the row
    ("INST-1","SN-99") yields two catalog entries, the second field
    being an entry of its own; a row with an empty first field is not
    dropped; and two rows that differ only in the second field share
    the entry of the first field. *)
Lemma C7_one_column_flattens_rows :
  OneColumn.parseMasterList [["INST-1"; "SN-99"]] = ["INST-1"; "SN-99"] /\
  OneColumn.parseMasterList [[" "; "SN-99"]] = ["SN-99"] /\
  OneColumn.parseMasterList [["INST-1"; "SN-99"]; ["INST-1"; "SN-77"]]
  = ["INST-1"; "SN-99"; "SN-77"].
Proof. vm_compute. repeat split; reflexivity. Qed.

(** C7, amended.  Two-column version: a one-field row becomes the entry
    string "field0," and a row with two or more fields the entry string
    "field0,field1" (fields trimmed, further fields ignored); an empty
    row and every row whose trimmed first field is empty are dropped;
    the catalog holds no entry twice and holds exactly the entry
    strings of the kept rows; and when no trimmed first field contains
    a comma the catalog is the one the specification describes.
    Single-column version: the catalog holds, once each, the non-empty
    trimmed fields of all rows, every field being an entry of its
    own. *)
Theorem C7_catalog_build_by_version :
  (forall f0, TwoColumn.rowString [f0] = Some (trim f0 ++ ",")%string) /\
  (forall f0 f1 rest,
      TwoColumn.rowString (f0 :: f1 :: rest)
      = Some (trim f0 ++ "," ++ trim f1)%string) /\
  TwoColumn.keepRow (TwoColumn.rowString []) = false /\
  (forall f0 rest,
      trim f0 = "" ->
      TwoColumn.keepRow (TwoColumn.rowString (f0 :: rest)) = false) /\
  (forall data, NoDup (TwoColumn.parseMasterList data)) /\
  (forall data item,
      In item (TwoColumn.parseMasterList data) <->
      exists row, In row data /\ TwoColumn.rowString row = Some item /\
                  TwoColumn.keepRow (Some item) = true) /\
  (forall data,
      (forall f0 rest, In (f0 :: rest) data -> hasComma (trim f0) = false) ->
      TwoColumn.parseMasterList data = specBuild data) /\
  (forall data, NoDup (OneColumn.parseMasterList data)) /\
  (forall data x,
      In x (OneColumn.parseMasterList data) <->
      x <> "" /\ exists row field,
                   In row data /\ In field row /\ x = trim field).
Proof.
  split; [reflexivity|]. split; [reflexivity|]. split; [reflexivity|].
  split.
  { intros f0 [|f1 rest] H; cbn [TwoColumn.rowString]; rewrite H; reflexivity. }
  split; [apply TwoColumn_parse_NoDup|].
  split; [apply TwoColumn_parse_In|].
  split.
  { intros data H. unfold TwoColumn.parseMasterList, specBuild.
    now rewrite TwoColumn_rows_as_spec. }
  split; [apply OneColumn_parse_NoDup|].
  intros data x. unfold OneColumn.parseMasterList.
  rewrite In_Set_of, filter_In, in_map_iff, truthy_true. split.
  - intros [[field [<- Hin]] Hne]. split; [assumption|].
    apply in_concat in Hin as [row [Hrow Hf]]. eauto.
  - intros [Hne (row & field & Hrow & Hf & ->)]. split; [|assumption].
    exists field. split; [reflexivity|]. apply in_concat. eauto.
Qed.

Lemma C7_catalog_build_by_version_witness :
  TwoColumn.keepRow (TwoColumn.rowString ["  "; "SN-1"]) = false /\
  TwoColumn.parseMasterList
    [["INST-1"; "SN-99"; "extra"]; []; [" "; "x"]; ["INST-2"];
     [" INST-1 "; "SN-99"]]
  = specBuild
      [["INST-1"; "SN-99"; "extra"]; []; [" "; "x"]; ["INST-2"];
       [" INST-1 "; "SN-99"]].
Proof.
  split.
  - apply (proj1 (proj2 (proj2 (proj2 C7_catalog_build_by_version)))).
    reflexivity.
  - apply (proj1 (proj2 (proj2 (proj2 (proj2 (proj2
             (proj2 C7_catalog_build_by_version))))))).
    intros f0 rest Hin. simpl in Hin.
    repeat (destruct Hin as [Hin|Hin]; [inversion Hin; reflexivity|]).
    contradiction.
Defined.

(* ================================================================== *)
(** ** Further properties of the report *)


(* ================================================================== *)
(** ** Further properties of the report *)

Lemma strictEq_spec (x : operand) (n : nat) :
  strictEq x n = true <-> x = Val (Num n).
Proof.
  destruct x as [[m|ps]|f|]; simpl; try (split; [discriminate | congruence]).
  rewrite Nat.eqb_eq. split; congruence.
Qed.

(** X1. What each expected-item bucket means, for any master list and
    tally.  An item is listed under missing exactly when it is a
    catalog item and [scannedData[item] || 0] is the number 0, under
    matched exactly when that value is the number 1; for an item other
    than "__proto__", [short] holds the value [v] for it exactly when
    it is a catalog item whose value exceeds 1 and is [v]; [short]
    never gets an own entry "__proto__"; and a catalog item that names
    a function of [Object.prototype] and has no entry of its own in
    the tally is listed in none of the three. *)
Theorem X1_bucket_meaning :
  forall (masterList : list string) (scannedData : obj) (item : string),
    let r := report masterList scannedData in
    (In item (missing r) <->
     In item masterList /\ actualCount scannedData item = Val (Num 0)) /\
    (In item (matched r) <->
     In item masterList /\ actualCount scannedData item = Val (Num 1)) /\
    (item <> "__proto__" ->
     forall v, get (short r) item = Some v <->
               In item masterList /\
               greater (actualCount scannedData item) 1 = true /\
               toPrimitive (actualCount scannedData item) = v) /\
    get (short r) "__proto__" = None /\
    (get scannedData item = None -> isProtoName item = true ->
     ~ In item (missing r) /\ ~ In item (matched r) /\
     get (short r) item = None).
Proof.
  intros ml sd item r. subst r.
  rewrite report_missing, report_matched, report_short, !filter_In.
  unfold isMissing, isMatched. rewrite !strictEq_spec.
  split; [reflexivity|]. split; [reflexivity|]. split; [|split].
  - intros P v.
    destruct (in_dec string_dec item (filter (isShort sd) ml)) as [Hin|Hn].
    + rewrite get_putShort by assumption.
      apply filter_In in Hin as [Hin Hs]. unfold isShort in Hs. split.
      * intros E. inversion E; subst. auto.
      * intros (_ & _ & E). now rewrite E.
    + rewrite get_putShort_notin by assumption. simpl. split; [discriminate|].
      intros (Hin & Hlt & E). exfalso. apply Hn. apply filter_In.
      split; assumption.
  - now rewrite get_putShort_proto.
  - intros G P.
    assert (A : actualCount sd item = Fn item \/
                actualCount sd item = ObjectPrototype).
    { unfold actualCount, read. rewrite G.
      destruct (inherited_proto item P) as [E|E]; rewrite E; simpl; auto. }
    assert (S : isShort sd item = false).
    { unfold isShort. destruct A as [A|A]; rewrite A; reflexivity. }
    split; [|split].
    + intros [_ E]. destruct A as [A|A]; congruence.
    + intros [_ E]. destruct A as [A|A]; congruence.
    + rewrite get_putShort_notin; [reflexivity|].
      intros Hin. apply filter_In in Hin as [_ Hin]. congruence.
Qed.

Lemma X1_bucket_meaning_witness :
  "A" <> "__proto__" /\
  (get (short (report ["A"; "constructor"] [("A", Num 3)])) "A"
   = Some (Num 3) <->
   In "A" ["A"; "constructor"] /\
   greater (actualCount [("A", Num 3)] "A") 1 = true /\
   toPrimitive (actualCount [("A", Num 3)] "A") = Num 3) /\
  ~ In "constructor" (missing (report ["A"; "constructor"] [("A", Num 3)])).
Proof.
  split; [discriminate|]. split.
  - refine (proj1 (proj2 (proj2 (X1_bucket_meaning ["A"; "constructor"]
              [("A", Num 3)] "A"))) _ (Num 3)). discriminate.
  - exact (proj1 (proj2 (proj2 (proj2 (proj2
              (X1_bucket_meaning ["A"; "constructor"] [("A", Num 3)]
                 "constructor")))) eq_refl eq_refl)).
Defined.

(** X2. The excess bucket lists exactly the tally keys that are not
    catalog items, each with its own tally value, in the order of the
    tally keys; and in every reachable state of either version no
    identifier is listed twice (the rendered list keys are unique). *)
Theorem X2_excess_bucket :
  (forall (masterList : list string) (scannedData : obj) (e : ExcessEntry),
      In e (excess (report masterList scannedData)) <->
      In (number e) (Object_keys scannedData) /\
      ~ In (number e) masterList /\
      count e = read scannedData (number e) /\
      exists v, get scannedData (number e) = Some v /\
                count e = Some (Val v)) /\
  (forall (masterList : list string) (scannedData : obj),
      map number (excess (report masterList scannedData))
      = filter (fun k => negb (includes masterList k))
          (Object_keys scannedData)) /\
  (forall acts : list OneColumn.Action,
      NoDup (map number (excess (OneColumn.reportOf (OneColumn.run acts))))) /\
  (forall acts : list TwoColumn.Action,
      NoDup (map number (excess (TwoColumn.reportOf (TwoColumn.run acts))))).
Proof.
  assert (M : forall ml sd,
             map number (excess (report ml sd))
             = filter (fun k => negb (includes ml k)) (Object_keys sd)).
  { intros ml sd. rewrite report_excess, map_map. simpl. apply map_id. }
  split; [|split; [exact M|split]].
  - intros ml sd e. rewrite report_excess, in_map_iff. split.
    + intros [k [<- Hk]]. apply filter_In in Hk as [Hk Hn]. simpl.
      apply negb_true_iff, includes_false in Hn.
      split; [assumption|]. split; [assumption|]. split; [reflexivity|].
      unfold read. destruct (get sd k) as [v|] eqn:G.
      * now exists v.
      * now apply get_None_keys in G.
    + intros (Hk & Hn & Hc & _). exists (number e). split.
      * destruct e as [k c]. simpl in *. unfold excessEntry. now rewrite Hc.
      * apply filter_In. split; [assumption|].
        now apply negb_true_iff, includes_false.
  - intros acts. unfold OneColumn.reportOf. rewrite M.
    apply NoDup_filter. apply (OneColumn_run_inv acts).
  - intros acts. unfold TwoColumn.reportOf. rewrite M.
    apply NoDup_filter. apply (TwoColumn_run_inv acts).
Qed.

(* ------------------------------------------------------------------ *)
(** *** Counts against scan events *)

Lemma OneColumn_step_tallyOK (st : OneColumn.State) (a : OneColumn.Action) :
  tallyOK (OneColumn.scannedData st) = true ->
  tallyOK (OneColumn.scannedData (OneColumn.step st a)) = true.
Proof.
  intros H. destruct a as [data|ev]; simpl.
  - destruct (OneColumn.uploadDisabled st); assumption.
  - unfold OneColumn.handleScan. destruct (_ || _); [|assumption].
    destruct (truthy (trim (OneColumn.value ev))) eqn:T; [|assumption].
    simpl. apply tallyOK_bump; [assumption | now apply truthy_true].
Qed.

Lemma OneColumn_fold_count (acts : list OneColumn.Action)
    (st : OneColumn.State) (item : string) :
  tallyOK (OneColumn.scannedData st) = true ->
  isProtoName item = false ->
  countOf (OneColumn.scannedData (fold_left OneColumn.step acts st)) item
  = countOf (OneColumn.scannedData st) item
    + List.length (filter (OneColumn_recordedAs item) acts).
Proof.
  intros Ht P. revert st Ht.
  induction acts as [|a acts IH]; intros st Ht; simpl; [lia|].
  rewrite IH by now apply OneColumn_step_tallyOK.
  destruct a as [data|ev]; simpl.
  - destruct (OneColumn.uploadDisabled st); reflexivity.
  - unfold OneColumn_recordedAs, OneColumn.handleScan. simpl.
    destruct (_ || _); simpl; [|reflexivity].
    destruct (truthy _); simpl; [|reflexivity].
    destruct (String.eqb_spec (trim (OneColumn.value ev)) item) as [->|Hne]; simpl.
    + rewrite countOf_bump_plain by assumption. lia.
    + now rewrite countOf_bump_other.
Qed.

Lemma OneColumn_count_is_history (acts : list OneColumn.Action) (item : string) :
  isProtoName item = false ->
  countOf (OneColumn.scannedData (OneColumn.run acts)) item
  = List.length (filter (OneColumn_recordedAs item) acts).
Proof.
  intros P. unfold OneColumn.run.
  now rewrite OneColumn_fold_count.
Qed.

(** Keys stay: a tally that has grown without a name of
    [Object.prototype] had none before. *)
Lemma noProtoNames_grows (o o' : obj) :
  grows o o' ->
  noProtoNames (Object_keys o') = true -> noProtoNames (Object_keys o) = true.
Proof.
  unfold noProtoNames. rewrite !forallb_forall. intros G H k Hk.
  apply H. destruct (get o k) as [v|] eqn:E.
  - destruct (G k v E) as [v' [E' _]]. now apply get_Some_keys in E'.
  - now apply get_None_keys in E.
Qed.

Lemma noProtoNames_bumped (o : obj) (k : string) :
  noProtoNames (Object_keys (bump o k)) = true -> isProtoName k = false.
Proof.
  unfold noProtoNames. rewrite forallb_forall. intros H.
  apply negb_true_iff, H. apply In_keys_set. now left.
Qed.

Lemma noProtoNames_before_bump (o : obj) (k : string) :
  noProtoNames (Object_keys (bump o k)) = true ->
  noProtoNames (Object_keys o) = true.
Proof. apply noProtoNames_grows, grows_bump. Qed.

Lemma total_num (masterList : list string) (o : obj) :
  tallyOK o = true -> noProtoNames (Object_keys o) = true ->
  totalScanned (report masterList o)
  = Num (list_sum (map numOf (Object_values o))).
Proof.
  intros Ht Hp. apply report_totalScanned_num. now apply tallyOK_allNum.
Qed.

Lemma sum_values_bumped (o : obj) (k : string) :
  tallyOK o = true ->
  noProtoNames (Object_keys (bump o k)) = true ->
  list_sum (map numOf (Object_values (bump o k)))
  = list_sum (map numOf (Object_values o)) + 1.
Proof.
  intros Ht Hp. apply sum_values_bump; [assumption|].
  now apply noProtoNames_bumped in Hp.
Qed.

Lemma OneColumn_step_sum (st : OneColumn.State) (a : OneColumn.Action) :
  tallyOK (OneColumn.scannedData st) = true ->
  noProtoNames (Object_keys (OneColumn.scannedData (OneColumn.step st a)))
  = true ->
  list_sum (map numOf (Object_values
                         (OneColumn.scannedData (OneColumn.step st a))))
  = list_sum (map numOf (Object_values (OneColumn.scannedData st)))
    + (if OneColumn_recorded a then 1 else 0).
Proof.
  intros Ht. destruct a as [data|ev]; simpl.
  - destruct (OneColumn.uploadDisabled st); simpl; lia.
  - unfold OneColumn.handleScan.
    destruct (_ || _); simpl; [|lia].
    destruct (truthy _); simpl; [|lia].
    intros Hp. now apply sum_values_bumped.
Qed.

Lemma OneColumn_fold_sum (acts : list OneColumn.Action)
    (st : OneColumn.State) :
  tallyOK (OneColumn.scannedData st) = true ->
  noProtoNames
    (Object_keys (OneColumn.scannedData (fold_left OneColumn.step acts st)))
  = true ->
  list_sum (map numOf (Object_values
     (OneColumn.scannedData (fold_left OneColumn.step acts st))))
  = list_sum (map numOf (Object_values (OneColumn.scannedData st)))
    + List.length (filter OneColumn_recorded acts).
Proof.
  revert st. induction acts as [|a acts IH]; intros st Ht Hp; simpl; [lia|].
  simpl in Hp.
  rewrite IH by (try apply OneColumn_step_tallyOK; assumption).
  rewrite OneColumn_step_sum; [| assumption |].
  - destruct (OneColumn_recorded a); simpl; lia.
  - exact (noProtoNames_grows _ _
             (OneColumn_fold_grows acts (OneColumn.step st a)) Hp).
Qed.

(** X3. Single-column version, after any session.  For an identifier
    that is not the name of a property of [Object.prototype], the count
    stored is the number of Enter/Tab scan events whose trimmed text is
    that identifier (no entry when there was none); and when no such
    name was scanned (none is a key of the tally), totalScanned is the
    number of Enter/Tab scan events with non-blank text. *)
Theorem X3_one_column_counts_are_history :
  forall (acts : list OneColumn.Action),
    let st := OneColumn.run acts in
    (noProtoNames (Object_keys (OneColumn.scannedData st)) = true ->
     totalScanned (OneColumn.reportOf st)
     = Num (List.length (filter OneColumn_recorded acts))) /\
    (forall item,
        isProtoName item = false ->
        countOf (OneColumn.scannedData st) item
        = List.length (filter (OneColumn_recordedAs item) acts) /\
        actualCount (OneColumn.scannedData st) item
        = Val (Num (List.length (filter (OneColumn_recordedAs item) acts)))).
Proof.
  intros acts st. split.
  - intros Hp. unfold OneColumn.reportOf.
    rewrite total_num; [|apply OneColumn_run_tallyOK | assumption].
    subst st. unfold OneColumn.run in *.
    now rewrite OneColumn_fold_sum.
  - intros item P.
    pose proof (OneColumn_count_is_history acts item P) as E. fold st in E.
    split; [assumption|]. rewrite <- E.
    apply actualCount_plain; [apply OneColumn_run_tallyOK | assumption].
Qed.

Lemma X3_one_column_counts_are_history_witness :
  let acts := [OneColumn.Upload [["A"]];
               OneColumn.KeyDown {| OneColumn.key := "Enter";
                                    OneColumn.value := "A" |};
               OneColumn.KeyDown {| OneColumn.key := "Tab";
                                    OneColumn.value := " A" |};
               OneColumn.KeyDown {| OneColumn.key := "x";
                                    OneColumn.value := "A" |}] in
  totalScanned (OneColumn.reportOf (OneColumn.run acts)) = Num 2 /\
  countOf (OneColumn.scannedData (OneColumn.run acts)) "A" = 2.
Proof.
  split.
  - exact (proj1 (X3_one_column_counts_are_history
             [OneColumn.Upload [["A"]];
              OneColumn.KeyDown {| OneColumn.key := "Enter";
                                   OneColumn.value := "A" |};
              OneColumn.KeyDown {| OneColumn.key := "Tab";
                                   OneColumn.value := " A" |};
              OneColumn.KeyDown {| OneColumn.key := "x";
                                   OneColumn.value := "A" |}]) eq_refl).
  - exact (proj1 (proj2 (X3_one_column_counts_are_history
             [OneColumn.Upload [["A"]];
              OneColumn.KeyDown {| OneColumn.key := "Enter";
                                   OneColumn.value := "A" |};
              OneColumn.KeyDown {| OneColumn.key := "Tab";
                                   OneColumn.value := " A" |};
              OneColumn.KeyDown {| OneColumn.key := "x";
                                   OneColumn.value := "A" |}]) "A" eq_refl)).
Defined.

(* ------------------------------------------------------------------ *)
(** *** What the tally holds *)






(* ------------------------------------------------------------------ *)
(** *** One scan, one count *)

Lemma TwoColumn_step_tallyOK (st : TwoColumn.State) (a : TwoColumn.Action) :
  TwoColumn_inv st ->
  tallyOK (TwoColumn.scannedData st) = true ->
  tallyOK (TwoColumn.scannedData (TwoColumn.step st a)) = true.
Proof.
  intros Hi Ht.
  destruct (TwoColumn_step_key st a Hi) as [E|(k & Hne & _ & E)];
    rewrite E; [assumption | now apply tallyOK_bump].
Qed.

Lemma TwoColumn_processNumberIn_sum (rows : list string) (text : string)
    (st : TwoColumn.State) :
  tallyOK (TwoColumn.scannedData st) = true ->
  noProtoNames
    (Object_keys (TwoColumn.scannedData
                    (snd (TwoColumn.processNumberIn rows text st)))) = true ->
  list_sum (map numOf (Object_values
     (TwoColumn.scannedData (snd (TwoColumn.processNumberIn rows text st)))))
  = list_sum (map numOf (Object_values (TwoColumn.scannedData st)))
    + (if TwoColumn.accepted (fst (TwoColumn.processNumberIn rows text st))
       then 1 else 0).
Proof.
  intros Ht.
  destruct (TwoColumn_processNumberIn_cases rows text st)
    as [[_ E]|[(_ & _ & E)|(item & _ & _ & _ & E)]]; rewrite E; simpl;
    [lia | lia |].
  intros Hp. now apply sum_values_bumped.
Qed.

Lemma TwoColumn_step_sum (st : TwoColumn.State) (a : TwoColumn.Action) :
  tallyOK (TwoColumn.scannedData st) = true ->
  noProtoNames (Object_keys (TwoColumn.scannedData (TwoColumn.step st a)))
  = true ->
  list_sum (map numOf (Object_values
                         (TwoColumn.scannedData (TwoColumn.step st a))))
  = list_sum (map numOf (Object_values (TwoColumn.scannedData st)))
    + (if TwoColumn_succeeded st a then 1 else 0).
Proof.
  intros Ht. destruct a as [data|data|ev|text| | |decoded]; simpl.
  - destruct (TwoColumn.uploadDisabled st); simpl; lia.
  - lia.
  - unfold TwoColumn.handleScan. destruct (_ || _); simpl; [|lia].
    pose proof (TwoColumn_processNumberIn_sum (TwoColumn.masterList st)
                  (trim (TwoColumn.value ev)) st Ht) as P.
    fold (TwoColumn.processNumber (trim (TwoColumn.value ev)) st) in P.
    destruct (TwoColumn.processNumber _ st) as [r st']. simpl in P.
    destruct (TwoColumn.accepted r); exact P.
  - lia.
  - unfold TwoColumn.handleManualSubmit.
    pose proof (TwoColumn_processNumberIn_sum (TwoColumn.masterList st)
                  (TwoColumn.manualNumber st) st Ht) as P.
    fold (TwoColumn.processNumber (TwoColumn.manualNumber st) st) in P.
    destruct (TwoColumn.processNumber _ st) as [r st']. simpl in P.
    destruct (TwoColumn.accepted r); exact P.
  - lia.
  - destruct (TwoColumn.isUsingCamera st); simpl; [|lia].
    apply TwoColumn_processNumberIn_sum. assumption.
Qed.

Lemma TwoColumn_fold_sum (acts : list TwoColumn.Action)
    (st : TwoColumn.State) :
  TwoColumn_inv st ->
  tallyOK (TwoColumn.scannedData st) = true ->
  noProtoNames
    (Object_keys (TwoColumn.scannedData (fold_left TwoColumn.step acts st)))
  = true ->
  list_sum (map numOf (Object_values
     (TwoColumn.scannedData (fold_left TwoColumn.step acts st))))
  = list_sum (map numOf (Object_values (TwoColumn.scannedData st)))
    + TwoColumn_succeededCount acts st.
Proof.
  revert st. induction acts as [|a acts IH]; intros st Hi Ht Hp; simpl; [lia|].
  simpl in Hp.
  rewrite IH;
    [| now apply TwoColumn_step_inv | now apply TwoColumn_step_tallyOK
     | assumption].
  rewrite TwoColumn_step_sum; [lia | assumption |].
  exact (noProtoNames_grows _ _
           (TwoColumn_fold_grows acts (TwoColumn.step st a)) Hp).
Qed.

(** X5. Every scan moves the total by one or not at all, as long as no
    name of a property of [Object.prototype] is a key of the tally.
    In the single-column version, from any reachable state, an
    Enter/Tab event with non-blank text adds exactly 1 to totalScanned
    and any other key event adds nothing; in the two-column version,
    from any reachable state, a call of [processNumber] adds exactly 1
    when it returns true and nothing otherwise; and over a whole
    session of the two-column version totalScanned is the number of
    accepted scans (those for which the input was cleared or the
    running camera callback got true). *)
Theorem X5_total_counts_accepted_scans :
  (forall (acts : list OneColumn.Action) (ev : OneColumn.KeyEvent),
      let st := OneColumn.run acts in
      let st' := fst (OneColumn.handleScan ev st) in
      noProtoNames (Object_keys (OneColumn.scannedData st')) = true ->
      exists n,
        totalScanned (OneColumn.reportOf st) = Num n /\
        totalScanned (OneColumn.reportOf st')
        = Num (n + (if OneColumn_recorded (OneColumn.KeyDown ev)
                    then 1 else 0))) /\
  (forall (acts : list TwoColumn.Action) (text : string),
      let st := TwoColumn.run acts in
      let st' := snd (TwoColumn.processNumber text st) in
      noProtoNames (Object_keys (TwoColumn.scannedData st')) = true ->
      exists n,
        totalScanned (TwoColumn.reportOf st) = Num n /\
        totalScanned (TwoColumn.reportOf st')
        = Num (n + (if TwoColumn.accepted
                         (fst (TwoColumn.processNumber text st))
                    then 1 else 0))) /\
  (forall acts : list TwoColumn.Action,
      noProtoNames
        (Object_keys (TwoColumn.scannedData (TwoColumn.run acts))) = true ->
      totalScanned (TwoColumn.reportOf (TwoColumn.run acts))
      = Num (TwoColumn_succeededCount acts TwoColumn.initial)).
Proof.
  split; [|split].
  - intros acts ev st st' Hp.
    pose proof (OneColumn_run_tallyOK acts) as Ht. fold st in Ht.
    change st' with (OneColumn.step st (OneColumn.KeyDown ev)) in *.
    pose proof (noProtoNames_grows _ _
                  (OneColumn_step_grows st (OneColumn.KeyDown ev)) Hp) as Hp0.
    exists (list_sum (map numOf (Object_values (OneColumn.scannedData st)))).
    unfold OneColumn.reportOf. split; [now apply total_num|].
    rewrite total_num;
      [| now apply OneColumn_step_tallyOK | assumption].
    now rewrite OneColumn_step_sum.
  - intros acts text st st' Hp.
    destruct (TwoColumn_run_tally acts) as [Ht _]. fold st in Ht.
    destruct (TwoColumn_run_inv acts) as ([data Hd] & _). fold st in Hd.
    exists (list_sum (map numOf (Object_values (TwoColumn.scannedData st)))).
    unfold TwoColumn.reportOf.
    pose proof (TwoColumn_processNumberIn_sum (TwoColumn.masterList st)
                  text st Ht) as S.
    fold (TwoColumn.processNumber text st) in S. fold st' in S.
    specialize (S Hp).
    assert (Ht' : tallyOK (TwoColumn.scannedData st') = true).
    { subst st'.
      destruct (TwoColumn_processNumber_cases text st)
        as [[_ E]|[(_ & _ & E)|(item & _ & F & _ & E)]]; rewrite E; simpl;
        try assumption.
      apply tallyOK_bump; [assumption|].
      apply (built_instrument_nonempty data). rewrite <- Hd.
      now apply (find_some _ _ F). }
    assert (Hp0 : noProtoNames (Object_keys (TwoColumn.scannedData st)) = true).
    { revert Hp. subst st'.
      destruct (TwoColumn_processNumber_cases text st)
        as [[_ E]|[(_ & _ & E)|(item & _ & F & _ & E)]]; rewrite E; simpl;
        try (intros; assumption).
      apply noProtoNames_before_bump. }
    split; [now apply total_num|].
    rewrite (total_num _ _ Ht' Hp). now rewrite S.
  - intros acts Hp. unfold TwoColumn.reportOf.
    rewrite total_num; [|apply TwoColumn_run_tally | assumption].
    unfold TwoColumn.run in *.
    rewrite TwoColumn_fold_sum; [reflexivity | | reflexivity | assumption].
    split; [now exists []|]. split; [now exists [] | constructor].
Qed.

Lemma X5_total_counts_accepted_scans_witness :
  let scan t := TwoColumn.KeyDown {| TwoColumn.key := "Enter";
                                     TwoColumn.value := t |} in
  let acts := [TwoColumn.Upload [["INST-1"; "SN-99"]];
               scan "sn-99"; scan "nope"; TwoColumn.ToggleCamera;
               TwoColumn.CameraScan "inst-1"] in
  noProtoNames (Object_keys (TwoColumn.scannedData (TwoColumn.run acts)))
  = true /\
  totalScanned (TwoColumn.reportOf (TwoColumn.run acts)) = Num 2.
Proof.
  split; [reflexivity|].
  exact (proj2 (proj2 X5_total_counts_accepted_scans)
           [TwoColumn.Upload [["INST-1"; "SN-99"]];
            TwoColumn.KeyDown {| TwoColumn.key := "Enter";
                                 TwoColumn.value := "sn-99" |};
            TwoColumn.KeyDown {| TwoColumn.key := "Enter";
                                 TwoColumn.value := "nope" |};
            TwoColumn.ToggleCamera;
            TwoColumn.CameraScan "inst-1"] eq_refl).
Defined.

(* ------------------------------------------------------------------ *)
(** *** Single-column version: classification after one and two scans *)

(** X6. Single-column version: a catalog item that is not the name of
    a property of [Object.prototype] and whose identifier was recorded
    exactly once in the session is listed under matched and not under
    missing or short; after recording it once more it is in short with
    count 2 and no longer under matched or missing. *)
Lemma OneColumn_once_matched_twice_short
    (acts : list OneColumn.Action) (item : string) (ev : OneColumn.KeyEvent) :
  let st := OneColumn.run acts in
  let st' := fst (OneColumn.handleScan ev st) in
  isProtoName item = false ->
  In item (OneColumn.masterList st) ->
  List.length (filter (OneColumn_recordedAs item) acts) = 1 ->
  OneColumn_recordedAs item (OneColumn.KeyDown ev) = true ->
  (In item (matched (OneColumn.reportOf st)) /\
   ~ In item (missing (OneColumn.reportOf st)) /\
   ~ inShort (OneColumn.reportOf st) item) /\
  (get (short (OneColumn.reportOf st')) item = Some (Num 2) /\
   ~ In item (matched (OneColumn.reportOf st')) /\
   ~ In item (missing (OneColumn.reportOf st'))).
Proof.
  intros st st' P Hin Hone Hev.
  assert (Hpp : item <> "__proto__") by (intros ->; discriminate).
  pose proof (OneColumn_count_is_history acts item P) as Hc. fold st in Hc.
  rewrite Hone in Hc.
  pose proof (OneColumn_count_is_history (acts ++ [OneColumn.KeyDown ev]) item P)
    as Hc'.
  unfold OneColumn.run in Hc'. rewrite fold_left_app in Hc'. simpl in Hc'.
  fold (OneColumn.run acts) in Hc'. fold st in Hc'. fold st' in Hc'.
  rewrite filter_app, length_app, Hone in Hc'. simpl in Hc'.
  rewrite Hev in Hc'. simpl in Hc'.
  assert (Ha : actualCount (OneColumn.scannedData st) item = Val (Num 1)).
  { rewrite <- Hc. apply actualCount_plain;
      [apply OneColumn_run_tallyOK | assumption]. }
  assert (Ha' : actualCount (OneColumn.scannedData st') item = Val (Num 2)).
  { rewrite <- Hc'. apply actualCount_plain; [|assumption].
    apply (OneColumn_step_tallyOK st (OneColumn.KeyDown ev)).
    apply OneColumn_run_tallyOK. }
  assert (Hml : OneColumn.masterList st' = OneColumn.masterList st).
  { subst st'. unfold OneColumn.handleScan. destruct (_ || _); [|reflexivity].
    destruct (truthy _); reflexivity. }
  assert (Hns : ~ In item (Object_keys
                   (short (report (OneColumn.masterList st)
                             (OneColumn.scannedData st))))).
  { apply get_None_keys.
    rewrite report_short, get_putShort_notin; [reflexivity|].
    intros Hf. apply filter_In in Hf as [_ Hf]. unfold isShort in Hf.
    rewrite Ha in Hf. discriminate. }
  unfold OneColumn.reportOf, inShort. rewrite Hml.
  rewrite (report_short_get _ _ item Hpp Hin)
    by (unfold isShort; now rewrite Ha').
  rewrite !report_missing, !report_matched, !filter_In.
  unfold isMissing, isMatched. rewrite Ha, Ha'. simpl.
  split; [split; [tauto|split]|split; [reflexivity|split]];
    try (intros [_ H]; discriminate).
  exact Hns.
Qed.

Lemma OneColumn_once_matched_twice_short_witness :
  let acts := [OneColumn.Upload [["A"]; ["B"]];
               OneColumn.KeyDown {| OneColumn.key := "Enter";
                                    OneColumn.value := " A " |}] in
  let ev := {| OneColumn.key := "Tab"; OneColumn.value := "A" |} in
  In "A" (matched (OneColumn.reportOf (OneColumn.run acts))) /\
  get (short (OneColumn.reportOf
                (fst (OneColumn.handleScan ev (OneColumn.run acts))))) "A"
  = Some (Num 2).
Proof.
  pose proof (OneColumn_once_matched_twice_short
                [OneColumn.Upload [["A"]; ["B"]];
                 OneColumn.KeyDown {| OneColumn.key := "Enter";
                                      OneColumn.value := " A " |}]
                "A" {| OneColumn.key := "Tab"; OneColumn.value := "A" |}
                eq_refl (or_introl eq_refl) eq_refl eq_refl)
    as [[H1 _] [H2 _]].
  split; [exact H1 | exact H2].
Defined.

(* ------------------------------------------------------------------ *)
(** *** Normalization of the scanned text *)

Lemma TwoColumn_processNumber_normalized (st : TwoColumn.State)
    (t1 t2 : string) :
  t1 <> "" -> t2 <> "" ->
  toUpperCase (trim t1) = toUpperCase (trim t2) ->
  TwoColumn.processNumber t1 st = TwoColumn.processNumber t2 st.
Proof.
  intros H1 H2 E. unfold TwoColumn.processNumber, TwoColumn.processNumberIn.
  apply truthy_true in H1. apply truthy_true in H2.
  now rewrite H1, H2, E.
Qed.

Lemma TwoColumn_processNumber_trim (st : TwoColumn.State) (text : string) :
  trim text <> "" ->
  TwoColumn.processNumber (trim text) st = TwoColumn.processNumber text st.
Proof.
  intros H. apply TwoColumn_processNumber_normalized;
    [assumption | now apply trim_nonempty_arg | now rewrite trim_idem].
Qed.

(** X9. Two-column version: what [processNumber] does with a
    non-empty text depends only on the trimmed, upper-cased text.  Two
    non-empty texts with the same normalization give the same result
    and the same next state; in particular the text may be trimmed
    first (when something is left) or upper-cased first without any
    difference. *)
Theorem X9_scan_depends_on_normalized_text :
  (forall (st : TwoColumn.State) (t1 t2 : string),
      t1 <> "" -> t2 <> "" ->
      toUpperCase (trim t1) = toUpperCase (trim t2) ->
      TwoColumn.processNumber t1 st = TwoColumn.processNumber t2 st) /\
  (forall (st : TwoColumn.State) (text : string),
      trim text <> "" ->
      TwoColumn.processNumber (trim text) st
      = TwoColumn.processNumber text st) /\
  (forall (st : TwoColumn.State) (text : string),
      text <> "" ->
      TwoColumn.processNumber (toUpperCase text) st
      = TwoColumn.processNumber text st).
Proof.
  split; [exact TwoColumn_processNumber_normalized|].
  split; [exact TwoColumn_processNumber_trim|].
  intros st text H. apply TwoColumn_processNumber_normalized.
  - intros E. apply toUpperCase_empty in E. contradiction.
  - assumption.
  - now rewrite trim_upper, toUpperCase_idem.
Qed.

Lemma X9_scan_depends_on_normalized_text_witness :
  let st := TwoColumn.run [TwoColumn.Upload [["INST-1"; "SN-99"]]] in
  toUpperCase (trim " inst-1 ") = toUpperCase (trim "Inst-1") /\
  TwoColumn.processNumber " inst-1 " st = TwoColumn.processNumber "Inst-1" st /\
  TwoColumn.processNumber (toUpperCase "sn-99") st
  = TwoColumn.processNumber "sn-99" st.
Proof.
  split; [reflexivity|]. split.
  - refine (proj1 X9_scan_depends_on_normalized_text
              (TwoColumn.run [TwoColumn.Upload [["INST-1"; "SN-99"]]])
              " inst-1 " "Inst-1" _ _ eq_refl); discriminate.
  - refine (proj2 (proj2 X9_scan_depends_on_normalized_text)
              (TwoColumn.run [TwoColumn.Upload [["INST-1"; "SN-99"]]])
              "sn-99" _); discriminate.
Defined.

(* ------------------------------------------------------------------ *)
(** *** The three input surfaces *)

(** X10. Two-column version: how the input surfaces agree.  For a
    text that is not blank, pressing Enter or Tab in the scanner box
    leads to the very state [processNumber] leads to for that text;
    submitting the manual form changes catalog and tally as
    [processNumber] does for the typed text; and a camera scan does
    the same as [processNumber], hence as Enter or Tab, whenever the
    camera is running and its callback keeps the current master list.
    It does so right after the camera is switched on, and from then on
    for as long as no master list is loaded.  With the camera switched
    on before the load, the camera scan of a
    catalog identifier records nothing while Enter tallies it. *)
Theorem X10_input_surfaces_agree :
  (forall (st : TwoColumn.State) (k text : string),
      k = "Enter" \/ k = "Tab" ->
      trim text <> "" ->
      fst (TwoColumn.handleScan
             {| TwoColumn.key := k; TwoColumn.value := text |} st)
      = snd (TwoColumn.processNumber text st)) /\
  (forall st : TwoColumn.State,
      let submitted := fst (TwoColumn.handleManualSubmit st) in
      let direct := snd (TwoColumn.processNumber (TwoColumn.manualNumber st) st) in
      TwoColumn.scannedData submitted = TwoColumn.scannedData direct /\
      TwoColumn.masterList submitted = TwoColumn.masterList direct) /\
  (forall (st : TwoColumn.State) (k text : string),
      TwoColumn.isUsingCamera st = true ->
      TwoColumn.cameraList st = TwoColumn.masterList st ->
      TwoColumn.step st (TwoColumn.CameraScan text)
      = snd (TwoColumn.processNumber text st) /\
      (k = "Enter" \/ k = "Tab" -> trim text <> "" ->
       TwoColumn.step st (TwoColumn.CameraScan text)
       = fst (TwoColumn.handleScan
                {| TwoColumn.key := k; TwoColumn.value := text |} st))) /\
  (forall st : TwoColumn.State,
      TwoColumn.isUsingCamera st = false ->
      let st' := TwoColumn.step st TwoColumn.ToggleCamera in
      TwoColumn.isUsingCamera st' = true /\
      TwoColumn.cameraList st' = TwoColumn.masterList st') /\
  (forall (st : TwoColumn.State) (acts : list TwoColumn.Action),
      TwoColumn_noLoad acts = true ->
      TwoColumn.cameraList st = TwoColumn.masterList st ->
      TwoColumn.cameraList (fold_left TwoColumn.step acts st)
      = TwoColumn.masterList (fold_left TwoColumn.step acts st)) /\
  (let st := TwoColumn.run [TwoColumn.ToggleCamera;
                            TwoColumn.Upload [["INST-1"; "SN-99"]]] in
   TwoColumn.scannedData (TwoColumn.step st (TwoColumn.CameraScan "INST-1"))
   = [] /\
   TwoColumn.scannedData
     (TwoColumn.step st
        (TwoColumn.KeyDown {| TwoColumn.key := "Enter";
                              TwoColumn.value := "INST-1" |}))
   = [("INST-1", Num 1)]).
Proof.
  assert (K : forall (st : TwoColumn.State) (k text : string),
             k = "Enter" \/ k = "Tab" ->
             trim text <> "" ->
             fst (TwoColumn.handleScan
                    {| TwoColumn.key := k; TwoColumn.value := text |} st)
             = snd (TwoColumn.processNumber text st)).
  { intros st k text Hk Ht. unfold TwoColumn.handleScan.
    simpl. rewrite (TwoColumn_processNumber_trim st text Ht).
    assert (E : String.eqb k "Enter" || String.eqb k "Tab" = true)
      by (destruct Hk as [->| ->]; reflexivity).
    rewrite E. destruct (TwoColumn.processNumber text st) as [r st'].
    destruct (TwoColumn.accepted r); reflexivity. }
  split; [exact K|]. split; [|split; [|split; [|split]]].
  - intros st. unfold TwoColumn.handleManualSubmit.
    destruct (TwoColumn.processNumber (TwoColumn.manualNumber st) st) as [r st'].
    destruct (TwoColumn.accepted r); simpl; split; reflexivity.
  - intros st k text Hc Hl.
    assert (E : TwoColumn.step st (TwoColumn.CameraScan text)
                = snd (TwoColumn.processNumber text st)).
    { simpl. rewrite Hc. unfold TwoColumn.onScanSuccess. now rewrite Hl. }
    split; [exact E|]. intros Hk Ht. rewrite E. symmetry. now apply K.
  - intros st Hc. simpl. rewrite Hc. split; reflexivity.
  - intros st acts. revert st.
    induction acts as [|a acts IH]; intros st Hn Hl; simpl; [assumption|].
    simpl in Hn. apply andb_true_iff in Hn as [Ha Hn].
    apply negb_true_iff in Ha. apply IH; [assumption|].
    rewrite (TwoColumn_step_masterList st a Ha).
    destruct (TwoColumn_step_cameraList st a) as [E|[_ E]]; rewrite E;
      [assumption | reflexivity].
  - vm_compute. split; reflexivity.
Qed.

Lemma X10_input_surfaces_agree_witness :
  let st := TwoColumn.run [TwoColumn.Upload [["INST-1"; "SN-99"]];
                           TwoColumn.ToggleCamera] in
  trim " sn-99 " <> "" /\
  TwoColumn.isUsingCamera st = true /\
  TwoColumn.cameraList st = TwoColumn.masterList st /\
  TwoColumn.step st (TwoColumn.CameraScan " sn-99 ")
  = fst (TwoColumn.handleScan
           {| TwoColumn.key := "Tab"; TwoColumn.value := " sn-99 " |} st).
Proof.
  split; [vm_compute; discriminate|].
  split; [reflexivity|]. split; [reflexivity|].
  refine (proj2 (proj1 (proj2 (proj2 X10_input_surfaces_agree))
            (TwoColumn.run [TwoColumn.Upload [["INST-1"; "SN-99"]];
                            TwoColumn.ToggleCamera])
            "Tab" " sn-99 " eq_refl eq_refl) (or_intror eq_refl) _).
  vm_compute. discriminate.
Defined.

(* ------------------------------------------------------------------ *)
(** *** The catalog during a session *)

Lemma OneColumn_step_masterList_loaded (st : OneColumn.State)
    (a : OneColumn.Action) :
  OneColumn.masterList st <> [] ->
  OneColumn.masterList (OneColumn.step st a) = OneColumn.masterList st.
Proof.
  intros H. destruct a as [data|ev]; simpl.
  - unfold OneColumn.uploadDisabled.
    destruct (OneColumn.masterList st) eqn:E; [contradiction|].
    simpl. exact E.
  - unfold OneColumn.handleScan. destruct (_ || _); [|reflexivity].
    destruct (truthy _); reflexivity.
Qed.

Lemma TwoColumn_step_masterList_loaded (st : TwoColumn.State)
    (a : TwoColumn.Action) :
  TwoColumn.masterList st <> [] ->
  (match a with TwoColumn.Drop _ => false | _ => true end) = true ->
  TwoColumn.masterList (TwoColumn.step st a) = TwoColumn.masterList st.
Proof.
  intros H Ha. destruct a as [data|data|ev|text| | |decoded];
    try discriminate;
    try (apply TwoColumn_step_masterList; reflexivity).
  simpl. unfold TwoColumn.uploadDisabled.
  destruct (TwoColumn.masterList st) eqn:E; [contradiction|].
  simpl. exact E.
Qed.

(** X11. Once a non-empty master list is loaded it stays for the rest
    of the session: in the single-column version no sequence of file
    uploads and key events changes it; in the two-column version no
    sequence of file uploads, key events, manual entries and camera
    scans changes it, as long as no file is dropped on the drop zone
    (whose handler is not disabled). *)
Theorem X11_loaded_catalog_is_fixed :
  (forall (acts : list OneColumn.Action) (st : OneColumn.State),
      OneColumn.masterList st <> [] ->
      OneColumn.masterList (fold_left OneColumn.step acts st)
      = OneColumn.masterList st) /\
  (forall (acts : list TwoColumn.Action) (st : TwoColumn.State),
      TwoColumn.masterList st <> [] ->
      TwoColumn_noDrop acts = true ->
      TwoColumn.masterList (fold_left TwoColumn.step acts st)
      = TwoColumn.masterList st).
Proof.
  split.
  - intros acts. induction acts as [|a acts IH]; intros st H; simpl;
      [reflexivity|].
    pose proof (OneColumn_step_masterList_loaded st a H) as E.
    rewrite IH by (rewrite E; assumption). exact E.
  - intros acts. induction acts as [|a acts IH]; intros st H Hd; simpl;
      [reflexivity|].
    simpl in Hd. apply andb_true_iff in Hd as [Ha Hr].
    pose proof (TwoColumn_step_masterList_loaded st a H Ha) as E.
    rewrite IH by (try rewrite E; assumption). exact E.
Qed.

Lemma X11_loaded_catalog_is_fixed_witness :
  let st := TwoColumn.run [TwoColumn.Upload [["INST-1"; "SN-99"]]] in
  let acts := [TwoColumn.Upload [["OTHER"]]; TwoColumn.ToggleCamera;
               TwoColumn.CameraScan "sn-99"] in
  TwoColumn.masterList st <> [] /\
  TwoColumn.masterList (fold_left TwoColumn.step acts st) = ["INST-1,SN-99"].
Proof.
  split; [vm_compute; discriminate|].
  refine (proj2 X11_loaded_catalog_is_fixed
            [TwoColumn.Upload [["OTHER"]]; TwoColumn.ToggleCamera;
             TwoColumn.CameraScan "sn-99"]
            (TwoColumn.run [TwoColumn.Upload [["INST-1"; "SN-99"]]])
            _ eq_refl).
  vm_compute. discriminate.
Defined.

(* ------------------------------------------------------------------ *)
(** *** Repeated rows in the master file *)

Lemma fold_Set_add_absorb (ys s : list string) :
  (forall y, In y ys -> In y s) -> fold_left Set_add ys s = s.
Proof.
  induction ys as [|y ys IH]; intros H; simpl; [reflexivity|].
  assert (E : Set_add s y = s).
  { unfold Set_add. rewrite (proj2 (includes_In s y)); [reflexivity|].
    apply H. now left. }
  rewrite E. apply IH. intros z Hz. apply H. now right.
Qed.

Lemma Set_of_absorb (xs ys : list string) :
  (forall y, In y ys -> In y xs) -> Set_of (xs ++ ys) = Set_of xs.
Proof.
  intros H. unfold Set_of. rewrite fold_left_app.
  apply fold_Set_add_absorb. intros y Hy. apply In_Set_of. now apply H.
Qed.

(** X12. Rows that repeat earlier rows of the master file change
    nothing: in either version, building the catalog from [data]
    followed by rows that all occur in [data] gives the catalog built
    from [data] alone, entries and order included. *)
Theorem X12_repeated_rows_are_absorbed :
  forall (data more : list (list string)),
    (forall row, In row more -> In row data) ->
    OneColumn.parseMasterList (data ++ more) = OneColumn.parseMasterList data /\
    TwoColumn.parseMasterList (data ++ more) = TwoColumn.parseMasterList data.
Proof.
  intros data more H. split.
  - unfold OneColumn.parseMasterList.
    rewrite concat_app, map_app, filter_app. apply Set_of_absorb.
    intros y Hy. apply filter_In in Hy as [Hy Ht].
    apply in_map_iff in Hy as [field [<- Hf]].
    apply in_concat in Hf as [row [Hrow Hf]].
    apply filter_In. split; [|assumption].
    apply in_map. apply in_concat. exists row. split; [now apply H | assumption].
  - unfold TwoColumn.parseMasterList, TwoColumn.unwrap.
    rewrite map_app, filter_app, flat_map_app. apply Set_of_absorb.
    intros y Hy. fold (TwoColumn.unwrap
                         (filter TwoColumn.keepRow
                            (map TwoColumn.rowString more))) in Hy.
    apply In_unwrap in Hy. apply filter_In in Hy as [Hy Hk].
    apply in_map_iff in Hy as [row [Hr Hrow]].
    fold (TwoColumn.unwrap
            (filter TwoColumn.keepRow (map TwoColumn.rowString data))).
    apply In_unwrap. apply filter_In. split; [|assumption].
    rewrite <- Hr. apply in_map. now apply H.
Qed.

Lemma X12_repeated_rows_are_absorbed_witness :
  TwoColumn.parseMasterList
    ([["INST-1"; "SN-99"]; ["INST-2"]] ++ [["INST-2"]; ["INST-1"; "SN-99"]])
  = ["INST-1,SN-99"; "INST-2,"].
Proof.
  refine (eq_trans
            (proj2 (X12_repeated_rows_are_absorbed
                      [["INST-1"; "SN-99"]; ["INST-2"]]
                      [["INST-2"]; ["INST-1"; "SN-99"]] _))
            eq_refl).
  intros row Hin. simpl in Hin. simpl.
  destruct Hin as [<-|[<-|[]]]; auto.
Defined.


(* ------------------------------------------------------------------ *)
(** *** Distinct identifiers against the buckets *)

Lemma filter_split_length {A} (p : A -> bool) (l : list A) :
  List.length (filter p l) + List.length (filter (fun x => negb (p x)) l)
  = List.length l.
Proof.
  induction l as [|x l IH]; simpl; [reflexivity|].
  destruct (p x); simpl; lia.
Qed.

Lemma counted_length (sd : obj) (l : list string) :
  (forall x, In x l -> numericAt sd x) ->
  List.length (filter (fun x => negb (isMissing sd x)) l)
  = List.length (filter (isMatched sd) l)
    + List.length (filter (isShort sd) l).
Proof.
  induction l as [|x l IH]; intros H; simpl; [reflexivity|].
  specialize (IH (fun i Hi => H i (or_intror Hi))).
  destruct (bucket_cases sd x (H x (or_introl eq_refl)))
    as [(H0 & H1 & H2)|[(H0 & H1 & H2)|(H0 & H1 & H2)]];
    rewrite H0, H1, H2; simpl; lia.
Qed.

Lemma keys_length_by_bucket (masterList : list string) (sd : obj) :
  NoDup masterList -> wf sd -> tallyOK sd = true ->
  noProtoNames masterList = true ->
  let r := report masterList sd in
  List.length (Object_keys sd)
  = List.length (excess r) + List.length (matched r)
    + List.length (Object_keys (short r)).
Proof.
  intros Hml Hwf Ht Hp r. subst r.
  unfold noProtoNames in Hp. rewrite forallb_forall in Hp.
  assert (Hplain : forall x, In x masterList -> isProtoName x = false).
  { intros x Hx. apply negb_true_iff. now apply Hp. }
  assert (Hpp : ~ In "__proto__" masterList).
  { intros Hin. apply Hplain in Hin. discriminate. }
  assert (Hnum : forall x, In x masterList -> numericAt sd x).
  { intros x Hx. exists (countOf sd x). apply actualCount_plain;
      [assumption | now apply Hplain]. }
  rewrite report_matched, report_short_keys, report_excess by assumption.
  rewrite length_map, <- Nat.add_assoc, <- counted_length by assumption.
  rewrite <- (filter_split_length (includes masterList) (Object_keys sd)).
  rewrite Nat.add_comm. f_equal.
  apply Permutation_length. apply NoDup_Permutation.
  - now apply NoDup_filter.
  - now apply NoDup_filter.
  - intros x. rewrite !filter_In, includes_In, negb_true_iff.
    unfold isMissing. split.
    + intros [Hk Hin]. split; [assumption|].
      unfold actualCount, read.
      destruct (get sd x) as [v|] eqn:G;
        [|now apply get_None_keys in G].
      destruct (tallyOK_plain sd x v Ht (Hplain x Hin) G) as [n ->].
      reflexivity.
    + intros [Hin Hn]. split; [|assumption].
      destruct (in_dec string_dec x (Object_keys sd)) as [Hk|Hk];
        [assumption|]. exfalso.
      apply get_None_keys in Hk. unfold actualCount, read in Hn.
      rewrite Hk, (inherited_plain x (Hplain x Hin)) in Hn. discriminate.
Qed.

(** X13. The number of distinct identifiers in the tally is the number
    of excess entries plus the number of matched items plus the number
    of short entries, so that every tally key is shown in exactly one
    of the three "scanned" lists of the report: in every reachable
    state of the two-column version, and in every reachable state of
    the single-column version whose master list holds no name of a
    property of [Object.prototype]. *)
Theorem X13_tally_keys_by_bucket :
  (forall acts : list OneColumn.Action,
      let st := OneColumn.run acts in
      let r := OneColumn.reportOf st in
      noProtoNames (OneColumn.masterList st) = true ->
      List.length (Object_keys (OneColumn.scannedData st))
      = List.length (excess r) + List.length (matched r)
        + List.length (Object_keys (short r))) /\
  (forall acts : list TwoColumn.Action,
      let st := TwoColumn.run acts in
      let r := TwoColumn.reportOf st in
      List.length (Object_keys (TwoColumn.scannedData st))
      = List.length (excess r) + List.length (matched r)
        + List.length (Object_keys (short r))).
Proof.
  split; intros acts st r.
  - intros Hp. destruct (OneColumn_run_inv acts) as [[data Hd] Hwf].
    apply keys_length_by_bucket;
      [| assumption | apply OneColumn_run_tallyOK | assumption].
    fold st in Hd. rewrite Hd. apply OneColumn_parse_NoDup.
  - destruct (TwoColumn_run_inv acts) as ([data Hd] & _ & Hwf).
    fold st in Hd.
    apply keys_length_by_bucket;
      [| assumption | apply TwoColumn_run_tally |].
    + rewrite Hd. apply TwoColumn_parse_NoDup.
    + unfold noProtoNames. apply forallb_forall. intros x Hx.
      apply negb_true_iff, comma_not_protoName.
      rewrite Hd in Hx. now apply (TwoColumn_parse_comma data).
Qed.

Lemma X13_tally_keys_by_bucket_witness :
  let scan t := OneColumn.KeyDown {| OneColumn.key := "Enter";
                                     OneColumn.value := t |} in
  let acts := [OneColumn.Upload [["A"]; ["B"]; ["C"]];
               scan "A"; scan "B"; scan "B"; scan "constructor"; scan "Z"] in
  noProtoNames (OneColumn.masterList (OneColumn.run acts)) = true /\
  List.length (Object_keys (OneColumn.scannedData (OneColumn.run acts)))
  = List.length (excess (OneColumn.reportOf (OneColumn.run acts)))
    + List.length (matched (OneColumn.reportOf (OneColumn.run acts)))
    + List.length (Object_keys (short (OneColumn.reportOf (OneColumn.run acts)))).
Proof.
  split; [reflexivity|].
  exact (proj1 X13_tally_keys_by_bucket
           [OneColumn.Upload [["A"]; ["B"]; ["C"]];
            OneColumn.KeyDown {| OneColumn.key := "Enter";
                                 OneColumn.value := "A" |};
            OneColumn.KeyDown {| OneColumn.key := "Enter";
                                 OneColumn.value := "B" |};
            OneColumn.KeyDown {| OneColumn.key := "Enter";
                                 OneColumn.value := "B" |};
            OneColumn.KeyDown {| OneColumn.key := "Enter";
                                 OneColumn.value := "constructor" |};
            OneColumn.KeyDown {| OneColumn.key := "Enter";
                                 OneColumn.value := "Z" |}]
           eq_refl).
Defined.

(* ------------------------------------------------------------------ *)
(** *** Identifiers of the catalog are accepted *)

Lemma matched_text_is_accepted (st : TwoColumn.State) (item text : string) :
  trim text <> "" -> In item (TwoColumn.masterList st) ->
  TwoColumn.matchesItem (toUpperCase (trim text)) item = true ->
  fst (TwoColumn.processNumber text st) = Some true.
Proof.
  intros Hne Hin Hm.
  destruct (TwoColumn_processNumber_cases text st)
    as [[Z _]|[(_ & [F|F] & _)|(item' & _ & _ & _ & E)]].
  - subst text. now elim Hne.
  - pose proof (find_none _ _ F item Hin) as N. congruence.
  - apply find_some in F as [_ F]. rewrite matches_empty_item in F.
    apply String.eqb_eq in F. apply toUpperCase_empty in F. contradiction.
  - now rewrite E.
Qed.

(** X14. Two-column version: every identifier of the loaded catalog
    can be scanned.  In every reachable state, scanning the instrument
    number of any catalog row is accepted, and so is scanning the
    second comma-separated piece of any catalog row when it is not
    blank. *)
Theorem X14_catalog_identifiers_are_accepted :
  (forall (acts : list TwoColumn.Action) (item : string),
      let st := TwoColumn.run acts in
      In item (TwoColumn.masterList st) ->
      fst (TwoColumn.processNumber (TwoColumn.instrumentOf item) st)
      = Some true) /\
  (forall (st : TwoColumn.State) (item serial : string),
      In item (TwoColumn.masterList st) ->
      at_ (split TwoColumn.comma item) 1 = Some serial ->
      trim serial <> "" ->
      fst (TwoColumn.processNumber serial st) = Some true).
Proof.
  split.
  - intros acts item st Hin.
    apply (matched_text_is_accepted st item); [|assumption|].
    + destruct (TwoColumn_run_inv acts) as [[data Hd] _]. fold st in Hd.
      rewrite Hd in Hin. apply (built_instrument_nonempty data) in Hin.
      unfold TwoColumn.instrumentOf in *.
      destruct (at_ (split TwoColumn.comma item) 0); [|assumption].
      now rewrite trim_idem.
    + apply matches_own_instrument.
  - intros st item serial Hin Hs Ht.
    apply (matched_text_is_accepted st item); [assumption | assumption |].
    unfold TwoColumn.matchesItem, at_ in *.
    rewrite (map_nth_error _ 1 _ Hs), String.eqb_refl.
    apply orb_true_r.
Qed.

Lemma X14_catalog_identifiers_are_accepted_witness :
  let acts := [TwoColumn.Upload [["INST-1"; "SN-99"]; ["INST-2"]]] in
  In "INST-2," (TwoColumn.masterList (TwoColumn.run acts)) /\
  fst (TwoColumn.processNumber "INST-2" (TwoColumn.run acts)) = Some true /\
  fst (TwoColumn.processNumber "SN-99" (TwoColumn.run acts)) = Some true.
Proof.
  split; [vm_compute; auto|]. split.
  - refine (proj1 X14_catalog_identifiers_are_accepted
              [TwoColumn.Upload [["INST-1"; "SN-99"]; ["INST-2"]]]
              "INST-2," _).
    vm_compute. auto.
  - refine (proj2 X14_catalog_identifiers_are_accepted
              (TwoColumn.run
                 [TwoColumn.Upload [["INST-1"; "SN-99"]; ["INST-2"]]])
              "INST-1,SN-99" "SN-99" _ eq_refl _).
    + vm_compute. auto.
    + vm_compute. discriminate.
Defined.

(* ------------------------------------------------------------------ *)
(** *** Which buckets a scan can touch *)
(* ------------------------------------------------------------------ *)
(** *** Which buckets a scan can touch *)

Lemma putShort_fold_ext (sd sd' : obj) (l : list string) (o : obj) :
  (forall i, In i l -> read sd i = read sd' i) ->
  fold_left (putShort sd) l o = fold_left (putShort sd') l o.
Proof.
  revert o. induction l as [|x l IH]; intros o H; simpl; [reflexivity|].
  unfold putShort at 2 4, actualCount. rewrite (H x (or_introl eq_refl)).
  apply IH. intros i Hi. apply H. now right.
Qed.

Lemma expected_buckets_ext (ml : list string) (sd sd' : obj) :
  (forall i, In i ml -> read sd i = read sd' i) ->
  missing (report ml sd) = missing (report ml sd') /\
  matched (report ml sd) = matched (report ml sd') /\
  short (report ml sd) = short (report ml sd').
Proof.
  intros H. rewrite !report_missing, !report_matched, !report_short.
  assert (F : forall p : operand -> bool,
             filter (fun i => p (actualCount sd i)) ml
             = filter (fun i => p (actualCount sd' i)) ml).
  { intros p. apply filter_ext_in. intros i Hi. unfold actualCount.
    now rewrite (H i Hi). }
  split; [exact (F (fun x => strictEq x 0))|].
  split; [exact (F (fun x => strictEq x 1))|].
  assert (Fs : filter (isShort sd) ml = filter (isShort sd') ml)
    by exact (F (fun x => greater x 1)).
  rewrite Fs. apply putShort_fold_ext. intros i Hi. apply H.
  now apply filter_In in Hi as [Hi _].
Qed.

(** X15. Single-column version: a scan touches one side of the report
    only.  Scanning a text that is not a catalog item leaves the
    missing, matched and short buckets exactly as they were; scanning
    a catalog item leaves the excess bucket exactly as it was. *)
Theorem X15_scan_touches_one_side :
  (forall (ev : OneColumn.KeyEvent) (st : OneColumn.State),
      ~ In (trim (OneColumn.value ev)) (OneColumn.masterList st) ->
      let r := OneColumn.reportOf st in
      let r' := OneColumn.reportOf (fst (OneColumn.handleScan ev st)) in
      missing r' = missing r /\ matched r' = matched r /\ short r' = short r) /\
  (forall (ev : OneColumn.KeyEvent) (st : OneColumn.State),
      In (trim (OneColumn.value ev)) (OneColumn.masterList st) ->
      excess (OneColumn.reportOf (fst (OneColumn.handleScan ev st)))
      = excess (OneColumn.reportOf st)).
Proof.
  split.
  - intros ev st Hn r r'. subst r r'. unfold OneColumn.reportOf.
    unfold OneColumn.handleScan.
    destruct (_ || _); [|repeat split; reflexivity].
    destruct (truthy _); [|repeat split; reflexivity].
    cbn [fst OneColumn.masterList OneColumn.scannedData].
    apply expected_buckets_ext. intros i Hi.
    apply read_bump_other. intros E. apply Hn. now rewrite E.
  - intros ev st Hin. unfold OneColumn.reportOf, OneColumn.handleScan.
    destruct (_ || _); [|reflexivity].
    destruct (truthy _); [|reflexivity].
    cbn [fst OneColumn.masterList OneColumn.scannedData].
    set (k := trim (OneColumn.value ev)) in *.
    set (ml := OneColumn.masterList st) in *.
    set (sd := OneColumn.scannedData st).
    rewrite !report_excess.
    assert (K : filter (fun x => negb (includes ml x)) (Object_keys (bump sd k))
                = filter (fun x => negb (includes ml x)) (Object_keys sd)).
    { unfold bump.
      destruct (in_dec string_dec k (Object_keys sd)) as [Hk|Hk].
      - now rewrite keys_set_present.
      - rewrite keys_set_absent by assumption. rewrite filter_app. simpl.
        rewrite (proj2 (includes_In ml k) Hin). simpl. apply app_nil_r. }
    rewrite K. apply map_ext_in. intros x Hx.
    apply filter_In in Hx as [_ Hx].
    apply negb_true_iff, includes_false in Hx.
    unfold excessEntry. f_equal. apply read_bump_other.
    intros E. apply Hx. now rewrite <- E.
Qed.

Lemma X15_scan_touches_one_side_witness :
  let st := OneColumn.run
              [OneColumn.Upload [["A"]; ["B"]];
               OneColumn.KeyDown {| OneColumn.key := "Enter";
                                    OneColumn.value := "A" |}] in
  let ghost := {| OneColumn.key := "Enter"; OneColumn.value := "GHOST-404" |} in
  let again := {| OneColumn.key := "Enter"; OneColumn.value := "A" |} in
  matched (OneColumn.reportOf (fst (OneColumn.handleScan ghost st)))
  = matched (OneColumn.reportOf st) /\
  excess (OneColumn.reportOf (fst (OneColumn.handleScan again st)))
  = excess (OneColumn.reportOf st).
Proof.
  split.
  - refine (proj1 (proj2 (proj1 X15_scan_touches_one_side
              {| OneColumn.key := "Enter"; OneColumn.value := "GHOST-404" |}
              (OneColumn.run
                 [OneColumn.Upload [["A"]; ["B"]];
                  OneColumn.KeyDown {| OneColumn.key := "Enter";
                                       OneColumn.value := "A" |}]) _))).
    vm_compute. intros [H|[H|[]]]; discriminate.
  - refine (proj2 X15_scan_touches_one_side
              {| OneColumn.key := "Enter"; OneColumn.value := "A" |}
              (OneColumn.run
                 [OneColumn.Upload [["A"]; ["B"]];
                  OneColumn.KeyDown {| OneColumn.key := "Enter";
                                       OneColumn.value := "A" |}]) _).
    vm_compute. auto.
Defined.

(* ------------------------------------------------------------------ *)
(** *** Blank text in the two-column version *)

Lemma find_ext_in {A} (p q : A -> bool) (l : list A) :
  (forall x, In x l -> p x = q x) -> find_ p l = find_ q l.
Proof.
  unfold find_. induction l as [|x l IH]; intros H; simpl; [reflexivity|].
  rewrite (H x (or_introl eq_refl)). destruct (q x); [reflexivity|].
  apply IH. intros y Hy. apply H. now right.
Qed.

(** For a row with a non-empty instrument number, the empty text
    matches exactly when the serial piece is empty. *)
Lemma matches_empty_text (item : string) :
  TwoColumn.instrumentOf item <> "" ->
  TwoColumn.matchesItem "" item = serialEmpty item.
Proof.
  unfold TwoColumn.matchesItem, TwoColumn.instrumentOf, serialEmpty, at_.
  destruct (split TwoColumn.comma item) as [|h [|s t]];
    cbn [map nth_error]; intros Hh; [contradiction| |];
    rewrite !upper_eqb_empty; apply truthy_true in Hh; rewrite Hh;
    reflexivity.
Qed.

(** X16. Two-column version, in every reachable state: a text made of
    white space only (and not empty) that reaches [processNumber], as
    manual entries do, is credited to the first catalog row whose
    serial piece is empty; when no row has an empty serial piece it is
    rejected and the state is unchanged. *)
Theorem X16_blank_text_goes_to_first_row_without_serial :
  forall (acts : list TwoColumn.Action) (text : string),
    isBlank text = true -> text <> "" ->
    let st := TwoColumn.run acts in
    TwoColumn.processNumber text st
    = match find_ serialEmpty (TwoColumn.masterList st) with
      | Some item =>
          (Some true,
           {| TwoColumn.masterList := TwoColumn.masterList st;
              TwoColumn.scannedData :=
                bump (TwoColumn.scannedData st) (TwoColumn.instrumentOf item);
              TwoColumn.manualNumber := TwoColumn.manualNumber st;
              TwoColumn.isUsingCamera := TwoColumn.isUsingCamera st;
              TwoColumn.cameraList := TwoColumn.cameraList st |})
      | None => (Some false, st)
      end.
Proof.
  intros acts text Hb Hne st.
  destruct (TwoColumn_run_inv acts) as [[data Hd] _]. fold st in Hd.
  assert (F : find_ (TwoColumn.matchesItem (toUpperCase (trim text)))
                (TwoColumn.masterList st)
              = find_ serialEmpty (TwoColumn.masterList st)).
  { rewrite (trim_blank text Hb). simpl. apply find_ext_in.
    intros item Hin. apply matches_empty_text.
    rewrite Hd in Hin. now apply (built_instrument_nonempty data). }
  destruct (TwoColumn_processNumber_cases text st)
    as [[Z _]|[(_ & [N|N] & E)|(item & _ & G & _ & E)]].
  - contradiction.
  - rewrite F in N. now rewrite N.
  - exfalso. apply find_some in N as [N _]. rewrite Hd in N.
    now apply (TwoColumn_parse_nonempty data) in N.
  - rewrite F in G. now rewrite G.
Qed.

Lemma X16_blank_text_goes_to_first_row_without_serial_witness :
  let acts := [TwoColumn.Upload [["INST-1"; "SN-99"]; ["INST-2"]; ["INST-3"]]] in
  isBlank "  " = true /\
  TwoColumn.scannedData
    (snd (TwoColumn.processNumber "  " (TwoColumn.run acts)))
  = [("INST-2", Num 1)].
Proof.
  split; [reflexivity|].
  refine (eq_trans
            (f_equal (fun p => TwoColumn.scannedData (snd p))
               (X16_blank_text_goes_to_first_row_without_serial
                  [TwoColumn.Upload
                     [["INST-1"; "SN-99"]; ["INST-2"]; ["INST-3"]]]
                  "  " eq_refl _))
            eq_refl).
  discriminate.
Defined.

(* ------------------------------------------------------------------ *)
(** *** The two catalog builds on a one-column file *)

Lemma Set_add_map_inj (g : string -> string) (s : list string) (x : string) :
  (forall a b, g a = g b -> a = b) ->
  Set_add (map g s) (g x) = map g (Set_add s x).
Proof.
  intros Hg. unfold Set_add.
  assert (E : includes (map g s) (g x) = includes s x).
  { destruct (includes s x) eqn:I.
    - apply includes_In. apply in_map. now apply includes_In.
    - apply includes_false. apply includes_false in I. intros Hin.
      apply in_map_iff in Hin as [y [Hy Hin]]. apply Hg in Hy. now subst. }
  rewrite E. destruct (includes s x); [reflexivity|].
  now rewrite map_app.
Qed.

Lemma Set_of_map_inj (g : string -> string) (xs : list string) :
  (forall a b, g a = g b -> a = b) ->
  Set_of (map g xs) = map g (Set_of xs).
Proof.
  intros Hg. unfold Set_of.
  change (@nil string) with (map g []) at 1. generalize (@nil string).
  induction xs as [|x xs IH]; intros s; simpl; [reflexivity|].
  now rewrite Set_add_map_inj, IH.
Qed.

(** X17. On a master file with one field per row and no comma in any
    field, the two versions build the same catalog up to the row
    format: the two-column catalog is the single-column catalog with a
    comma appended to every entry, in the same order. *)
Theorem X17_one_column_file_same_catalog :
  forall (fields : list string),
    (forall f, In f fields -> hasComma (trim f) = false) ->
    let data := map (fun f => [f]) fields in
    TwoColumn.parseMasterList data
    = map (fun x => (x ++ ",")%string) (OneColumn.parseMasterList data).
Proof.
  intros fields H data. subst data.
  unfold TwoColumn.parseMasterList, OneColumn.parseMasterList.
  rewrite <- Set_of_map_inj by exact append_comma_inj. f_equal.
  induction fields as [|f fields IH]; [reflexivity|].
  cbn [map List.concat app filter TwoColumn.rowString].
  change (trim f ++ ",")%string
    with (trim f ++ String TwoColumn.comma "")%string at 1.
  rewrite keepRow_commafree by (apply H; now left).
  assert (IH' := IH (fun g Hg => H g (or_intror Hg))).
  destruct (truthy (trim f)); cbn [map TwoColumn.unwrap flat_map app];
    [f_equal|]; exact IH'.
Qed.

Lemma X17_one_column_file_same_catalog_witness :
  TwoColumn.parseMasterList [["A"]; [" b "]; [" "]; ["A"]]
  = ["A,"; "b,"].
Proof.
  refine (eq_trans
            (X17_one_column_file_same_catalog ["A"; " b "; " "; "A"] _)
            eq_refl).
  intros f Hin. simpl in Hin.
  destruct Hin as [<-|[<-|[<-|[<-|[]]]]]; reflexivity.
Defined.

(* ------------------------------------------------------------------ *)
(** *** Shape of catalog entries and tally keys *)

(** X18. Catalog entries are normalized.  Every entry of a
    single-column catalog is non-empty and already trimmed; every
    entry of a two-column catalog contains a comma, does not start
    with white space, and has a non-empty instrument number. *)
Theorem X18_catalog_entries_are_normalized :
  (forall (data : list (list string)) (x : string),
      In x (OneColumn.parseMasterList data) -> x <> "" /\ trim x = x) /\
  (forall (data : list (list string)) (item : string),
      In item (TwoColumn.parseMasterList data) ->
      hasComma item = true /\ headWhite item = false /\
      TwoColumn.instrumentOf item <> "").
Proof.
  split.
  - intros data x Hin. unfold OneColumn.parseMasterList in Hin.
    apply In_Set_of, filter_In in Hin as [Hin Ht].
    apply in_map_iff in Hin as [f [<- _]].
    split; [now apply truthy_true | apply trim_idem].
  - intros data item Hin. split; [now apply (TwoColumn_parse_comma data)|].
    split; [|now apply (built_instrument_nonempty data)].
    apply TwoColumn_parse_In in Hin as [row (_ & Hr & _)].
    now apply rowString_head in Hr.
Qed.

Lemma X18_catalog_entries_are_normalized_witness :
  In "INST-1,SN-99" (TwoColumn.parseMasterList [[" INST-1 "; "SN-99 "]]) /\
  TwoColumn.instrumentOf "INST-1,SN-99" <> "".
Proof.
  split; [vm_compute; auto|].
  refine (proj2 (proj2 (proj2 X18_catalog_entries_are_normalized
                          [[" INST-1 "; "SN-99 "]] "INST-1,SN-99" _))).
  vm_compute. auto.
Defined.


